(** * The B2C user flow resource of the Azure AD Terraform provider

    A shallow embedding of [internal/services/b2cuserflow/userflow_resource.go]:
    the schema, the importer's identifier check and the four lifecycle
    operations [b2cuserflowResourceCreate], [b2cuserflowResourceRead],
    [b2cuserflowResourceUpdate] and [b2cuserflowResourceDelete].

    The Go functions receive a [*schema.ResourceData] and the provider's
    client, mutate both, and return [diag.Diagnostics]; a nil pointer
    dereference or a failed type assertion panics.  Here they are
    computations in a state monad over the pair (resource data, client)
    whose result is either a returned value or a panic.  The msgraph client
    is an external collaborator: its replies are given by a [Service], a
    record of reply functions over an arbitrary remote state, and every call
    is appended to the client's call log.

    Left out: the [log.Printf] lines, which only write to the provider's
    log; the empty [odata.Query] given to every Get; and the context given
    to the client's calls, whose deadline matters to the deletion wait
    only. *)

From Stdlib Require Import ZArith String Ascii List Bool Lia.
From Stdlib Require Import Floats.PrimFloat Floats.SpecFloat Floats.FloatOps.
Import ListNotations.
Open Scope string_scope.
Open Scope Z_scope.

Set Implicit Arguments.

(** ** Go values *)

(** A Go [error] is observed through its message; [nil] is [None]. *)
Definition error := string.

Definition errors_New (msg : string) : error := msg.

(** [http.StatusNotFound]. *)
Definition StatusNotFound : Z := 404.

(** [float64] is IEEE binary64, that is Rocq's primitive [float].  A
    [float32] is kept as the binary64 number it denotes (every binary32
    number is one). *)
Record float32 := F32 { float64_of_float32 : float }.

Definition round_binary32 (x : spec_float) : spec_float :=
  match x with
  | S754_finite s m e => binary_normalize 24 128 (cond_Zopp s (Zpos m)) e s
  | _ => x
  end.

(** The conversion [float32(x)] of a [float64]: round to nearest even. *)
Definition float32_of_float64 (x : float) : float32 :=
  F32 (SF2Prim (round_binary32 (Prim2SF x))).

(** ** msgraph.B2CUserFlow

    The fields the source file reads and writes; all are pointers. *)
Record B2CUserFlow := {
  ID : option string;
  UserFlowType : option string;
  UserFlowTypeVersion : option float32;
  DefaultLanguageTag : option string;
  IsLanguageCustomizationEnabled : option bool
}.

(** [fmt.Sprintf] with the verbs [%q], [%d] and [%+v] is kept symbolic: the
    format and its arguments.  Only [%s] of a string is rendered, where the
    source needs the resulting string. *)
Inductive FmtArg : Type :=
| ArgString (s : string)
| ArgInt (n : Z)
| ArgUserFlow (u : B2CUserFlow).

Record Message := Sprintf { format : string; args : list FmtArg }.

(** [fmt.Sprintf("B2C_1_%s", name)]. *)
Definition Sprintf_B2C_1 (name : string) : string := "B2C_1_" ++ name.

(** ** The schema (lines 46-87) *)

Inductive Attr : Type :=
| object_id
| name
| user_flow_type
| user_flow_type_version
| default_language_tag
| is_language_customization_enabled.

Definition attr_key (a : Attr) : string :=
  match a with
  | object_id => "object_id"
  | name => "name"
  | user_flow_type => "user_flow_type"
  | user_flow_type_version => "user_flow_type_version"
  | default_language_tag => "default_language_tag"
  | is_language_customization_enabled => "is_language_customization_enabled"
  end.

Inductive ValueType : Type := TypeString | TypeFloat | TypeBool.

Record SchemaEntry := {
  Type_ : ValueType;
  Required : bool;
  Optional : bool;
  Computed : bool
}.

Definition Schema (a : Attr) : SchemaEntry :=
  match a with
  | object_id =>
      {| Type_ := TypeString; Required := false; Optional := false; Computed := true |}
  | name =>
      {| Type_ := TypeString; Required := true; Optional := false; Computed := false |}
  | user_flow_type =>
      {| Type_ := TypeString; Required := true; Optional := false; Computed := false |}
  | user_flow_type_version =>
      {| Type_ := TypeFloat; Required := true; Optional := false; Computed := false |}
  | default_language_tag =>
      {| Type_ := TypeString; Required := false; Optional := true; Computed := false |}
  | is_language_customization_enabled =>
      {| Type_ := TypeBool; Required := false; Optional := true; Computed := false |}
  end.

(** The six values accepted for [user_flow_type] ([validation.StringInSlice],
    case sensitive). *)
Definition user_flow_type_values : list string :=
  ["signUp"; "signIn"; "signUpOrSignIn"; "passwordReset"; "profileUpdate";
   "resourceOwner"].

Definition user_flow_type_valid (v : string) : bool :=
  existsb (String.eqb v) user_flow_type_values.

(** ** schema.ResourceData

    An [interface{}] read from or written to the resource data. *)
Inductive Value : Type :=
| VString (s : string)
| VFloat (x : float)
| VFloat32 (x : float32)
| VBool (b : bool).

(** The attribute values, typed by the schema. *)
Record Attrs := {
  a_object_id : string;
  a_name : string;
  a_user_flow_type : string;
  a_user_flow_type_version : float;
  a_default_language_tag : string;
  a_is_language_customization_enabled : bool
}.

(** [prior] holds the values persisted by the previous operation, [current]
    the configured values overlaid with what the running operation has set. *)
Record ResourceData := {
  Id : string;
  prior : Attrs;
  current : Attrs
}.

Definition attrs_get (v : Attrs) (a : Attr) : Value :=
  match a with
  | object_id => VString (a_object_id v)
  | name => VString (a_name v)
  | user_flow_type => VString (a_user_flow_type v)
  | user_flow_type_version => VFloat (a_user_flow_type_version v)
  | default_language_tag => VString (a_default_language_tag v)
  | is_language_customization_enabled =>
      VBool (a_is_language_customization_enabled v)
  end.

(** [d.Set(key, value)] on the attribute record: [None] is the error the
    SDK gives for a value of the wrong type.  A [float32] is widened to the
    attribute's [float64]. *)
Definition attrs_set (v : Attrs) (a : Attr) (x : Value) : option Attrs :=
  match a, x with
  | object_id, VString s =>
      Some {| a_object_id := s; a_name := a_name v;
              a_user_flow_type := a_user_flow_type v;
              a_user_flow_type_version := a_user_flow_type_version v;
              a_default_language_tag := a_default_language_tag v;
              a_is_language_customization_enabled :=
                a_is_language_customization_enabled v |}
  | name, VString s =>
      Some {| a_object_id := a_object_id v; a_name := s;
              a_user_flow_type := a_user_flow_type v;
              a_user_flow_type_version := a_user_flow_type_version v;
              a_default_language_tag := a_default_language_tag v;
              a_is_language_customization_enabled :=
                a_is_language_customization_enabled v |}
  | user_flow_type, VString s =>
      Some {| a_object_id := a_object_id v; a_name := a_name v;
              a_user_flow_type := s;
              a_user_flow_type_version := a_user_flow_type_version v;
              a_default_language_tag := a_default_language_tag v;
              a_is_language_customization_enabled :=
                a_is_language_customization_enabled v |}
  | user_flow_type_version, VFloat f =>
      Some {| a_object_id := a_object_id v; a_name := a_name v;
              a_user_flow_type := a_user_flow_type v;
              a_user_flow_type_version := f;
              a_default_language_tag := a_default_language_tag v;
              a_is_language_customization_enabled :=
                a_is_language_customization_enabled v |}
  | user_flow_type_version, VFloat32 f =>
      Some {| a_object_id := a_object_id v; a_name := a_name v;
              a_user_flow_type := a_user_flow_type v;
              a_user_flow_type_version := float64_of_float32 f;
              a_default_language_tag := a_default_language_tag v;
              a_is_language_customization_enabled :=
                a_is_language_customization_enabled v |}
  | default_language_tag, VString s =>
      Some {| a_object_id := a_object_id v; a_name := a_name v;
              a_user_flow_type := a_user_flow_type v;
              a_user_flow_type_version := a_user_flow_type_version v;
              a_default_language_tag := s;
              a_is_language_customization_enabled :=
                a_is_language_customization_enabled v |}
  | is_language_customization_enabled, VBool b =>
      Some {| a_object_id := a_object_id v; a_name := a_name v;
              a_user_flow_type := a_user_flow_type v;
              a_user_flow_type_version := a_user_flow_type_version v;
              a_default_language_tag := a_default_language_tag v;
              a_is_language_customization_enabled := b |}
  | _, _ => None
  end.

(** [reflect.DeepEqual] on two attribute values: [==] of the Go type, so a
    NaN differs from itself. *)
Definition Value_eqb (x y : Value) : bool :=
  match x, y with
  | VString s, VString t => String.eqb s t
  | VFloat f, VFloat g => PrimFloat.eqb f g
  | VFloat32 f, VFloat32 g =>
      PrimFloat.eqb (float64_of_float32 f) (float64_of_float32 g)
  | VBool b, VBool c => Bool.eqb b c
  | _, _ => false
  end.

(** [d.Get(key)]. *)
Definition Get (d : ResourceData) (a : Attr) : Value := attrs_get (current d) a.

(** [d.GetChange(key)]: the persisted and the new value. *)
Definition GetChange (d : ResourceData) (a : Attr) : Value * Value :=
  (attrs_get (prior d) a, attrs_get (current d) a).

(** [d.HasChange(key)]. *)
Definition HasChange (d : ResourceData) (a : Attr) : bool :=
  let (o, n) := GetChange d a in negb (Value_eqb o n).

(** [d.SetId(v)]. *)
Definition SetId (d : ResourceData) (v : string) : ResourceData :=
  {| Id := v; prior := prior d; current := current d |}.

(** [d.Set(key, value)]. *)
Definition Set_ (d : ResourceData) (a : Attr) (x : Value) : option ResourceData :=
  match attrs_set (current d) a x with
  | Some v => Some {| Id := Id d; prior := prior d; current := v |}
  | None => None
  end.

(** ** Diagnostics *)

Inductive Severity : Type := Error | Warning.

Record Diagnostic := {
  severity : Severity;
  Summary : Message;
  Detail : string;
  AttributePath : string
}.

Definition Diagnostics := list Diagnostic.

(** Modelled from the spec: [tf.ErrorDiagPathF] of [internal/tf] is not in
    the sources at hand.  It gives one error diagnostic whose summary is the
    formatted annotation, whose detail is the message of the error being
    surfaced and whose path is the named attribute. *)
Definition ErrorDiagPathF (err : error) (attr : string) (summary : string)
    (a : list FmtArg) : Diagnostics :=
  [ {| severity := Error; Summary := Sprintf summary a; Detail := err;
       AttributePath := attr |} ].

(** Modelled from the spec: [tf.ErrorDiagF] of [internal/tf] is not in the
    sources at hand; it is [tf.ErrorDiagPathF] without an attribute path. *)
Definition ErrorDiagF (err : error) (summary : string) (a : list FmtArg)
    : Diagnostics :=
  ErrorDiagPathF err "" summary a.

(** ** The msgraph client

    [client.Create] and [client.Get] return a pointer to a user flow, a
    status code and an error; [client.Update] and [client.Delete] return a
    status code and an error. *)
Record EntityReply := {
  r_entity : option B2CUserFlow;
  r_status : Z;
  r_err : option error
}.

Record StatusReply := {
  s_status : Z;
  s_err : option error
}.

(** What the remote service answers: each reply may depend on the client's
    [DisableRetries] flag, on the request and on the remote state [R], which
    it may change. *)
Record Service (R : Type) := {
  on_Create : bool -> B2CUserFlow -> R -> EntityReply * R;
  on_Get : bool -> string -> R -> EntityReply * R;
  on_Update : bool -> B2CUserFlow -> R -> StatusReply * R;
  on_Delete : bool -> string -> R -> StatusReply * R
}.

(** A call as it leaves the client; [CallGet] records the value of
    [DisableRetries] at the time of the call. *)
Inductive Call : Type :=
| CallCreate (u : B2CUserFlow)
| CallGet (id : string) (retriesDisabled : bool)
| CallUpdate (u : B2CUserFlow)
| CallDelete (id : string).

(** The [B2CUserFlow.UserFlowClient] reached through [meta]: the flag
    [BaseClient.DisableRetries], the remote state behind the client and the
    log of the calls made so far, oldest first. *)
Record Client (R : Type) := {
  DisableRetries : bool;
  remote : R;
  calls : list Call
}.

(** What a lifecycle operation can change: the resource data [d] and the
    client reached through [meta]. *)
Record World (R : Type) := {
  data : ResourceData;
  client : Client R
}.

(** ** Computations: state, and panic *)

Inductive Outcome (W A : Type) : Type :=
| Return (a : A) (w : W)
| Panic (w : W).

Arguments Return {W A} a w.
Arguments Panic {W A} w.

Definition M (W A : Type) : Type := W -> Outcome W A.

Definition ret {W A : Type} (a : A) : M W A := fun w => Return a w.

Definition bind {W A B : Type} (m : M W A) (k : A -> M W B) : M W B :=
  fun w =>
    match m w with
    | Return a w' => k a w'
    | Panic w' => Panic w'
    end.

Definition panic {W A : Type} : M W A := fun w => Panic w.

Declare Scope go_scope.
Delimit Scope go_scope with go.
Notation "x <- m ;; k" := (bind m (fun x => k))
  (at level 61, m at next level, right associativity) : go_scope.
Notation "m ;; k" := (bind m (fun _ => k))
  (at level 61, right associativity) : go_scope.
Open Scope go_scope.

(** [*p]: a nil pointer dereference panics. *)
Definition deref {W A : Type} (p : option A) : M W A :=
  match p with
  | Some a => ret a
  | None => panic
  end.

(** The type assertions [v.(string)] and [v.(bool)], and
    [float32(v.(float64))]. *)
Definition assert_string {W : Type} (v : Value) : M W string :=
  match v with
  | VString s => ret s
  | _ => panic
  end.

Definition assert_bool {W : Type} (v : Value) : M W bool :=
  match v with
  | VBool b => ret b
  | _ => panic
  end.

Definition assert_float64 {W : Type} (v : Value) : M W float :=
  match v with
  | VFloat x => ret x
  | _ => panic
  end.

(** Modelled from the spec: [utils.Bool] of [internal/utils] is not in the
    sources at hand; it gives a pointer to the boolean. *)
Definition utils_Bool (b : bool) : option bool := Some b.

(** Modelled from the spec: the context's deadline is only used by
    [helpers.WaitForDeletion], which is not in the sources at hand.  A
    context is the number of probes that fit before its deadline elapses. *)
Definition Ctx := nat.

(** Modelled from the spec: the error of a wait whose deadline elapsed. *)
Definition DeadlineExceeded : error := "context deadline exceeded".

Section Operations.

Context {R : Type} (svc : Service R).

Abbreviation W := (World R).

(** *** Accessors of the resource data *)

Definition d_Id : M W string := fun w => Return (Id (data w)) w.

Definition d_Get (a : Attr) : M W Value := fun w => Return (Get (data w) a) w.

Definition d_HasChange (a : Attr) : M W bool :=
  fun w => Return (HasChange (data w) a) w.

Definition d_SetId (v : string) : M W unit :=
  fun w => Return tt {| data := SetId (data w) v; client := client w |}.

(** Modelled from the spec: [tf.Set] of [internal/tf] is not in the
    sources at hand.  It copies the value into the resource data under the
    key; a value the schema does not admit for the key stops the
    operation. *)
Definition tf_Set (a : Attr) (x : Value) : M W unit :=
  fun w =>
    match Set_ (data w) a x with
    | Some d' => Return tt {| data := d'; client := client w |}
    | None => Panic w
    end.

(** *** Calls of the client *)

Definition logged (c : Client R) (k : Call) (r' : R) : Client R :=
  {| DisableRetries := DisableRetries c; remote := r';
     calls := calls c ++ [k] |}.

Definition client_Create (u : B2CUserFlow) : M W EntityReply :=
  fun w =>
    let c := client w in
    let (reply, r') := on_Create svc (DisableRetries c) u (remote c) in
    Return reply {| data := data w; client := logged c (CallCreate u) r' |}.

Definition client_Get (id : string) : M W EntityReply :=
  fun w =>
    let c := client w in
    let (reply, r') := on_Get svc (DisableRetries c) id (remote c) in
    Return reply
      {| data := data w;
         client := logged c (CallGet id (DisableRetries c)) r' |}.

Definition client_Update (u : B2CUserFlow) : M W StatusReply :=
  fun w =>
    let c := client w in
    let (reply, r') := on_Update svc (DisableRetries c) u (remote c) in
    Return reply {| data := data w; client := logged c (CallUpdate u) r' |}.

Definition client_Delete (id : string) : M W StatusReply :=
  fun w =>
    let c := client w in
    let (reply, r') := on_Delete svc (DisableRetries c) id (remote c) in
    Return reply {| data := data w; client := logged c (CallDelete id) r' |}.

(** [client.BaseClient.DisableRetries = b]. *)
Definition set_DisableRetries (b : bool) : M W unit :=
  fun w =>
    Return tt
      {| data := data w;
         client := {| DisableRetries := b; remote := remote (client w);
                      calls := calls (client w) |} |}.

(** *** Read (lines 147-168) *)

Definition b2cuserflowResourceRead (ctx : Ctx) : M W Diagnostics :=
  objectId <- d_Id ;;
  reply <- client_Get objectId ;;
  match r_err reply with
  | Some err =>
      if r_status reply =? StatusNotFound then
        d_SetId "" ;;
        ret []
      else
        ret (ErrorDiagF err "Retrieving userflow with object ID: %q"
               [ArgString objectId])
  | None =>
      userflow <- deref (r_entity reply) ;;
      v <- deref (ID userflow) ;;
      tf_Set object_id (VString v) ;;
      v <- deref (UserFlowType userflow) ;;
      tf_Set user_flow_type (VString v) ;;
      v <- deref (UserFlowTypeVersion userflow) ;;
      tf_Set user_flow_type_version (VFloat32 v) ;;
      v <- deref (DefaultLanguageTag userflow) ;;
      tf_Set default_language_tag (VString v) ;;
      v <- deref (IsLanguageCustomizationEnabled userflow) ;;
      tf_Set is_language_customization_enabled (VBool v) ;;
      ret []
  end.

(** *** Create (lines 91-116) *)

Definition b2cuserflowResourceCreate (ctx : Ctx) : M W Diagnostics :=
  v <- d_Get name ;;
  name <- assert_string v ;;
  v <- d_Get user_flow_type ;;
  userflowType <- assert_string v ;;
  v <- d_Get user_flow_type_version ;;
  x <- assert_float64 v ;;
  let userflowTypeVersion := float32_of_float64 x in
  v <- d_Get default_language_tag ;;
  defaultTag <- assert_string v ;;
  v <- d_Get is_language_customization_enabled ;;
  isLanguageCustomizationEnabled <- assert_bool v ;;
  let userflow :=
    {| ID := Some name;
       UserFlowType := Some userflowType;
       UserFlowTypeVersion := Some userflowTypeVersion;
       DefaultLanguageTag := Some defaultTag;
       IsLanguageCustomizationEnabled := Some isLanguageCustomizationEnabled |}
  in
  reply <- client_Create userflow ;;
  match r_err reply with
  | Some err =>
      ret (ErrorDiagF err "Creating userflow %+v" [ArgUserFlow userflow])
  | None =>
      userflowResp <- deref (r_entity reply) ;;
      if match ID userflowResp with
         | None => true
         | Some s => String.eqb s ""
         end
      then
        ret (ErrorDiagF (errors_New "API returned nil object ID")
               "Bad API Response" [])
      else
        d_SetId (Sprintf_B2C_1 name) ;;
        b2cuserflowResourceRead ctx
  end.

(** *** Update (lines 118-145) *)

Definition b2cuserflowResourceUpdate (ctx : Ctx) : M W Diagnostics :=
  changed <- d_HasChange user_flow_type ;;
  if changed then
    ret (ErrorDiagF (errors_New "Cannot update user_flow_type")
           "Cannot update user_flow_type" [])
  else
  changed <- d_HasChange user_flow_type_version ;;
  if changed then
    ret (ErrorDiagF (errors_New "Cannot update user_flow_type_version")
           "Cannot update user_flow_type_version" [])
  else
  changed <- d_HasChange name ;;
  if changed then
    ret (ErrorDiagF (errors_New "Cannot update name") "Cannot update name" [])
  else
  objectId <- d_Id ;;
  v <- d_Get default_language_tag ;;
  defaultTag <- assert_string v ;;
  v <- d_Get is_language_customization_enabled ;;
  isLanguageCustomizationEnabled <- assert_bool v ;;
  let userflow :=
    {| ID := Some objectId;
       UserFlowType := None;
       UserFlowTypeVersion := None;
       DefaultLanguageTag := Some defaultTag;
       IsLanguageCustomizationEnabled := Some isLanguageCustomizationEnabled |}
  in
  reply <- client_Update userflow ;;
  match s_err reply with
  | Some err =>
      id <- d_Id ;;
      ret (ErrorDiagF err "Could not update userflow with ID: %q"
             [ArgString id])
  | None => b2cuserflowResourceRead ctx
  end.

(** *** Delete (lines 170-200) *)

(** The closure handed to [helpers.WaitForDeletion] (lines 186-195). *)
Definition deletionProbe (objectId : string) (ctx : Ctx)
    : M W (option bool * option error) :=
  set_DisableRetries true ;;
  reply <- client_Get objectId ;;
  match r_err reply with
  | Some err =>
      if r_status reply =? StatusNotFound then
        ret (utils_Bool false, None)
      else
        ret (None, Some err)
  | None => ret (utils_Bool true, None)
  end.

(** Modelled from the spec: the loop of [helpers.WaitForDeletion], which is
    not in the sources at hand, with the number of probes that still fit
    before the deadline.  The wait succeeds when the probe reports that the
    target is gone, and fails when the deadline elapses or the probe returns
    an error; a probe reporting that the target still exists (or reporting
    nothing) is followed by another probe. *)
Fixpoint poll (f : M W (option bool * option error)) (budget : nat)
    : M W (option error) :=
  match budget with
  | O => ret (Some DeadlineExceeded)
  | S budget' =>
      r <- f ;;
      match snd r with
      | Some err => ret (Some err)
      | None =>
          match fst r with
          | Some false => ret None
          | _ => poll f budget'
          end
      end
  end.

(** Modelled from the spec: [helpers.WaitForDeletion] of [internal/helpers]
    is not in the sources at hand.  It invokes the probe repeatedly within
    the deadline of the caller's context. *)
Definition WaitForDeletion (ctx : Ctx)
    (f : Ctx -> M W (option bool * option error)) : M W (option error) :=
  poll (f ctx) ctx.

Definition b2cuserflowResourceDelete (ctx : Ctx) : M W Diagnostics :=
  objectId <- d_Id ;;
  reply <- client_Delete objectId ;;
  match s_err reply with
  | Some err =>
      if s_status reply =? StatusNotFound then
        d_SetId "" ;;
        ret []
      else
        ret (ErrorDiagPathF err "id"
               "Deleting userflow with object ID %q, got status %d"
               [ArgString objectId; ArgInt (s_status reply)])
  | None =>
      werr <- WaitForDeletion ctx (deletionProbe objectId) ;;
      match werr with
      | Some err =>
          ret (ErrorDiagF err
                 "Waiting for deletion of userflow with object ID %q"
                 [ArgString objectId])
      | None => ret []
      end
  end.

End Operations.

Arguments poll {R} f budget.

(** ** The importer (lines 39-44) *)

Definition is_hex_digit (c : ascii) : bool :=
  let n := N_of_ascii c in
  ((48 <=? n) && (n <=? 57) || (97 <=? n) && (n <=? 102)
   || (65 <=? n) && (n <=? 70))%N.

Definition byte_at (s : string) (i : nat) : ascii :=
  match String.get i s with
  | Some c => c
  | None => Ascii.zero
  end.

Definition all_hex (s : string) : bool :=
  forallb is_hex_digit (list_ascii_of_string s).

(** Modelled from the spec: [uuid.ParseUUID] of the go-uuid library is not
    in the sources at hand.  The identifier must be a syntactically valid
    UUID: 36 bytes, a dash at the offsets 8, 13, 18 and 23, and hexadecimal
    digits everywhere else.  The result is the error, [None] for a valid
    identifier; the decoded bytes are not used by the importer. *)
Definition ParseUUID (id : string) : option error :=
  if negb (Nat.eqb (String.length id) 36) then
    Some (errors_New "uuid string is wrong length")
  else if negb (Ascii.eqb (byte_at id 8) "-" && Ascii.eqb (byte_at id 13) "-"
                && Ascii.eqb (byte_at id 18) "-"
                && Ascii.eqb (byte_at id 23) "-") then
    Some (errors_New "uuid is improperly formatted")
  else
    let hexStr :=
      substring 0 8 id ++ substring 9 4 id ++ substring 14 4 id
      ++ substring 19 4 id ++ substring 24 12 id in
    if all_hex hexStr then None
    else Some (errors_New "encoding/hex: invalid byte").

(** The function given to [tf.ValidateResourceIDPriorToImport]: the error
    wraps the identifier and the parser's error. *)
Definition importValidator (id : string) : option Message :=
  match ParseUUID id with
  | Some err =>
      Some (Sprintf "specified ID (%q) is not valid: %s"
              [ArgString id; ArgString err])
  | None => None
  end.

(** Modelled from the spec: [tf.ValidateResourceIDPriorToImport] of
    [internal/tf] is not in the sources at hand.  The importer rejects the
    identifier before import when the validator gives an error, and
    otherwise imports the resource data as it is. *)
Definition Importer (d : ResourceData) : list ResourceData * option Message :=
  match importValidator (Id d) with
  | Some err => ([d], Some err)
  | None => ([d], None)
  end.


(** ** Two remote services to run the operations on *)

(** A directory tenant held in memory: the user flows it stores, newest
    first.  Creation stores the flow under the prefixed name, as the
    remote service does; a lookup of an unknown identifier is a 404. *)
Module Tenant.

Definition has_id (id : string) (u : B2CUserFlow) : bool :=
  match ID u with
  | Some s => String.eqb s id
  | None => false
  end.

Definition or_else {A : Type} (x y : option A) : option A :=
  match x with
  | Some _ => x
  | None => y
  end.

Definition patch (u old : B2CUserFlow) : B2CUserFlow :=
  {| ID := ID old;
     UserFlowType := or_else (UserFlowType u) (UserFlowType old);
     UserFlowTypeVersion :=
       or_else (UserFlowTypeVersion u) (UserFlowTypeVersion old);
     DefaultLanguageTag := or_else (DefaultLanguageTag u) (DefaultLanguageTag old);
     IsLanguageCustomizationEnabled :=
       or_else (IsLanguageCustomizationEnabled u)
         (IsLanguageCustomizationEnabled old) |}.

Definition not_found : error := "404 Not Found".

Definition service : Service (list B2CUserFlow) :=
  {| on_Create := fun _ u flows =>
       match ID u with
       | None =>
           ({| r_entity := None; r_status := 400;
               r_err := Some "400 Bad Request" |}, flows)
       | Some n =>
           let stored :=
             {| ID := Some (Sprintf_B2C_1 n);
                UserFlowType := UserFlowType u;
                UserFlowTypeVersion := UserFlowTypeVersion u;
                DefaultLanguageTag := DefaultLanguageTag u;
                IsLanguageCustomizationEnabled :=
                  IsLanguageCustomizationEnabled u |} in
           ({| r_entity := Some stored; r_status := 201; r_err := None |},
            stored :: flows)
       end;
     on_Get := fun _ id flows =>
       match find (has_id id) flows with
       | Some u => ({| r_entity := Some u; r_status := 200; r_err := None |}, flows)
       | None =>
           ({| r_entity := None; r_status := 404; r_err := Some not_found |},
            flows)
       end;
     on_Update := fun _ u flows =>
       match ID u with
       | Some id =>
           if existsb (has_id id) flows then
             ({| s_status := 204; s_err := None |},
              map (fun old => if has_id id old then patch u old else old) flows)
           else ({| s_status := 404; s_err := Some not_found |}, flows)
       | None => ({| s_status := 400; s_err := Some "400 Bad Request" |}, flows)
       end;
     on_Delete := fun _ id flows =>
       if existsb (has_id id) flows then
         ({| s_status := 204; s_err := None |},
          filter (fun u => negb (has_id id u)) flows)
       else ({| s_status := 404; s_err := Some not_found |}, flows) |}.

End Tenant.

(** A scripted service: the replies are taken from a list in order,
    whatever the request; a reply of the wrong kind, or none left, is a
    500. *)
Module Scripted.

Inductive Canned : Type :=
| Entity (r : EntityReply)
| Status (r : StatusReply).

Definition unexpected : error := "500 Internal Server Error".

Definition entity (script : list Canned) : EntityReply * list Canned :=
  match script with
  | Entity r :: rest => (r, rest)
  | _ => ({| r_entity := None; r_status := 500; r_err := Some unexpected |},
          tl script)
  end.

Definition status (script : list Canned) : StatusReply * list Canned :=
  match script with
  | Status r :: rest => (r, rest)
  | _ => ({| s_status := 500; s_err := Some unexpected |}, tl script)
  end.

Definition service : Service (list Canned) :=
  {| on_Create := fun _ _ => entity;
     on_Get := fun _ _ => entity;
     on_Update := fun _ _ => status;
     on_Delete := fun _ _ => status |}.

End Scripted.

(** The scenario of the documentation: a sign-up flow named "promo". *)
Definition promo_config : Attrs :=
  {| a_object_id := "";
     a_name := "promo";
     a_user_flow_type := "signUp";
     a_user_flow_type_version := 1%float;
     a_default_language_tag := "en";
     a_is_language_customization_enabled := false |}.

Definition promo_flow : B2CUserFlow :=
  {| ID := Some "B2C_1_promo";
     UserFlowType := Some "signUp";
     UserFlowTypeVersion := Some (float32_of_float64 1%float);
     DefaultLanguageTag := Some "en";
     IsLanguageCustomizationEnabled := Some false |}.

Definition promo_state : Attrs :=
  {| a_object_id := "B2C_1_promo";
     a_name := "promo";
     a_user_flow_type := "signUp";
     a_user_flow_type_version := 1%float;
     a_default_language_tag := "en";
     a_is_language_customization_enabled := false |}.

(** Before the first apply: nothing persisted, no identifier. *)
Definition promo_new : ResourceData :=
  {| Id := "";
     prior := {| a_object_id := ""; a_name := ""; a_user_flow_type := "";
                 a_user_flow_type_version := 0%float;
                 a_default_language_tag := "";
                 a_is_language_customization_enabled := false |};
     current := promo_config |}.

(** After creation, with an unchanged configuration. *)
Definition promo_created : ResourceData :=
  {| Id := "B2C_1_promo"; prior := promo_state; current := promo_state |}.

Definition fresh_client {R : Type} (r : R) : Client R :=
  {| DisableRetries := false; remote := r; calls := [] |}.

Definition world_of {W A : Type} (o : Outcome W A) : W :=
  match o with
  | Return _ w => w
  | Panic w => w
  end.


(** ** Requests and results named in the properties *)

(** The flow Create builds from the configuration (lines 98-104). *)
Definition create_request (d : ResourceData) : B2CUserFlow :=
  {| ID := Some (a_name (current d));
     UserFlowType := Some (a_user_flow_type (current d));
     UserFlowTypeVersion :=
       Some (float32_of_float64 (a_user_flow_type_version (current d)));
     DefaultLanguageTag := Some (a_default_language_tag (current d));
     IsLanguageCustomizationEnabled :=
       Some (a_is_language_customization_enabled (current d)) |}.

(** The flow Update sends (lines 133-137). *)
Definition update_request (d : ResourceData) : B2CUserFlow :=
  {| ID := Some (Id d);
     UserFlowType := None;
     UserFlowTypeVersion := None;
     DefaultLanguageTag := Some (a_default_language_tag (current d));
     IsLanguageCustomizationEnabled :=
       Some (a_is_language_customization_enabled (current d)) |}.

(** The world once [client.BaseClient.DisableRetries] has been set. *)
Definition retries_disabled {R : Type} (w : World R) : World R :=
  {| data := data w;
     client := {| DisableRetries := true; remote := remote (client w);
                  calls := calls (client w) |} |}.

(** What Read leaves in the resource data when every field of the flow is
    present: the five attributes copied from the flow, the version widened
    to a [float64]; the identifier, the name and the persisted values stay. *)
Definition refreshed (d : ResourceData) (i t : string) (v : float32)
    (l : string) (b : bool) : ResourceData :=
  {| Id := Id d;
     prior := prior d;
     current :=
       {| a_object_id := i;
          a_name := a_name (current d);
          a_user_flow_type := t;
          a_user_flow_type_version := float64_of_float32 v;
          a_default_language_tag := l;
          a_is_language_customization_enabled := b |} |}.

(** A reply that lacks the default language tag: the first three
    attributes are already written when Read panics. *)
Definition flow_without_tag : B2CUserFlow :=
  {| ID := Some "B2C_1_promo";
     UserFlowType := Some "signUp";
     UserFlowTypeVersion := Some (float32_of_float64 1%float);
     DefaultLanguageTag := None;
     IsLanguageCustomizationEnabled := Some false |}.

Definition found (u : B2CUserFlow) : Scripted.Canned :=
  Scripted.Entity {| r_entity := Some u; r_status := 200; r_err := None |}.

(** The configuration renames the flow, and also changes a mutable
    attribute. *)
Definition promo_renamed : ResourceData :=
  {| Id := "B2C_1_promo";
     prior := promo_state;
     current :=
       {| a_object_id := "B2C_1_promo";
          a_name := "promotion";
          a_user_flow_type := "signUp";
          a_user_flow_type_version := 1%float;
          a_default_language_tag := "fr";
          a_is_language_customization_enabled := true |} |}.

(** The configuration changes the two mutable attributes only. *)
Definition promo_retagged : ResourceData :=
  {| Id := "B2C_1_promo";
     prior := promo_state;
     current :=
       {| a_object_id := "B2C_1_promo";
          a_name := "promo";
          a_user_flow_type := "signUp";
          a_user_flow_type_version := 1%float;
          a_default_language_tag := "fr";
          a_is_language_customization_enabled := true |} |}.

(** A creation that the service acknowledges without an identifier. *)
Definition created_without_id : Scripted.Canned :=
  Scripted.Entity
    {| r_entity :=
         Some {| ID := Some ""; UserFlowType := Some "signUp";
                 UserFlowTypeVersion := None; DefaultLanguageTag := None;
                 IsLanguageCustomizationEnabled := None |};
       r_status := 201; r_err := None |}.

(** The tenant holds the flow; Delete is asked to remove it. *)
Definition promo_world : World (list B2CUserFlow) :=
  {| data := promo_created; client := fresh_client [promo_flow] |}.

Definition promo_deleting : World (list B2CUserFlow) :=
  {| data := promo_created;
     client := {| DisableRetries := false; remote := [];
                  calls := [CallDelete "B2C_1_promo"] |} |}.

Definition promo_gone : World (list B2CUserFlow) :=
  {| data := promo_created;
     client := {| DisableRetries := true; remote := [];
                  calls := [CallDelete "B2C_1_promo";
                            CallGet "B2C_1_promo" true] |} |}.

(** The service accepts the deletion, but every later Get still finds the
    flow. *)
Definition lingering : list Scripted.Canned :=
  [Scripted.Status {| s_status := 204; s_err := None |};
   found promo_flow; found promo_flow].

(** ** Further inputs *)

(** A flow of version 1.1, which is not a binary32 number. *)
Definition tenth_config : Attrs :=
  {| a_object_id := "";
     a_name := "promo";
     a_user_flow_type := "signUp";
     a_user_flow_type_version := 0x1.199999999999ap+0%float;
     a_default_language_tag := "en";
     a_is_language_customization_enabled := false |}.

Definition tenth_new : ResourceData :=
  {| Id := ""; prior := prior promo_new; current := tenth_config |}.

(** The configuration changes the type and the name at once. *)
Definition promo_retyped : ResourceData :=
  {| Id := "B2C_1_promo";
     prior := promo_state;
     current :=
       {| a_object_id := "B2C_1_promo";
          a_name := "promotion";
          a_user_flow_type := "signIn";
          a_user_flow_type_version := 1%float;
          a_default_language_tag := "en";
          a_is_language_customization_enabled := false |} |}.

(** A reply without error and without a flow. *)
Definition nothing_found : Scripted.Canned :=
  Scripted.Entity {| r_entity := None; r_status := 200; r_err := None |}.

(** * Properties *)

Unset Implicit Arguments.

(** ** The operations on concrete inputs *)

Example ParseUUID_accepts :
  ParseUUID "123e4567-e89b-12d3-a456-426614174000" = None.
Proof. reflexivity. Qed.

Example ParseUUID_rejects_promo :
  ParseUUID (Sprintf_B2C_1 "promo") = Some "uuid string is wrong length".
Proof. reflexivity. Qed.

Example ParseUUID_rejects_long :
  ParseUUID (Sprintf_B2C_1 "ab-aaaa-bbbb-cccc-dddddddddddd")
  = Some "encoding/hex: invalid byte".
Proof. reflexivity. Qed.

Example promo_create :
  b2cuserflowResourceCreate Tenant.service 10%nat
    {| data := promo_new; client := fresh_client [] |}
  = Return []
      {| data := {| Id := "B2C_1_promo"; prior := prior promo_new;
                    current := promo_state |};
         client := {| DisableRetries := false; remote := [promo_flow];
                      calls := [CallCreate
                                  {| ID := Some "promo";
                                     UserFlowType := Some "signUp";
                                     UserFlowTypeVersion :=
                                       Some (float32_of_float64 1%float);
                                     DefaultLanguageTag := Some "en";
                                     IsLanguageCustomizationEnabled :=
                                       Some false |};
                                CallGet "B2C_1_promo" false] |} |}.
Proof. reflexivity. Qed.

Example promo_delete :
  b2cuserflowResourceDelete Tenant.service 10%nat
    {| data := promo_created; client := fresh_client [promo_flow] |}
  = Return []
      {| data := promo_created;
         client := {| DisableRetries := true; remote := [];
                      calls := [CallDelete "B2C_1_promo";
                                CallGet "B2C_1_promo" true] |} |}.
Proof. reflexivity. Qed.

(** ** Running a computation step by step *)

Lemma bind_Return {W A B : Type} (m : M W A) (k : A -> M W B) (w w' : W) (a : A) :
  m w = Return a w' -> bind m k w = k a w'.
Proof. intros H. unfold bind. now rewrite H. Qed.

Lemma bind_Panic {W A B : Type} (m : M W A) (k : A -> M W B) (w w' : W) :
  m w = Panic w' -> bind m k w = Panic w'.
Proof. intros H. unfold bind. now rewrite H. Qed.

Arguments bind_Return {W A B m k w w' a} _.
Arguments bind_Panic {W A B m k w w'} _.

(** Unfolds the plumbing of a computation, leaving the client's calls and
    the operations themselves folded. *)
Ltac run :=
  cbv beta iota delta
    [bind ret panic deref d_Id d_Get d_HasChange d_SetId set_DisableRetries
     assert_string assert_bool assert_float64 Get attrs_get utils_Bool];
  cbn [data client Id prior current DisableRetries remote calls].

Section Frames.

Context {R : Type} (svc : Service R).

(** A call of the client never panics, leaves the resource data alone and
    adds exactly itself to the log. *)
Lemma client_Get_frame (id : string) (w : World R) :
  exists reply w1,
    client_Get svc id w = Return reply w1
    /\ data w1 = data w
    /\ DisableRetries (client w1) = DisableRetries (client w)
    /\ calls (client w1)
       = (calls (client w) ++ [CallGet id (DisableRetries (client w))])%list.
Proof.
  unfold client_Get.
  destruct (on_Get svc (DisableRetries (client w)) id (remote (client w)))
    as [reply r'].
  now eexists _, _.
Qed.

Lemma client_Get_inv (id : string) (w w1 : World R) (reply : EntityReply) :
  client_Get svc id w = Return reply w1 ->
  data w1 = data w
  /\ DisableRetries (client w1) = DisableRetries (client w)
  /\ calls (client w1)
     = (calls (client w) ++ [CallGet id (DisableRetries (client w))])%list.
Proof.
  destruct (client_Get_frame id w) as (reply' & w' & E & Hd & Hf & Hc).
  rewrite E. intros [= <- <-]. auto.
Qed.

Lemma client_Delete_inv (id : string) (w w1 : World R) (reply : StatusReply) :
  client_Delete svc id w = Return reply w1 ->
  data w1 = data w
  /\ DisableRetries (client w1) = DisableRetries (client w)
  /\ calls (client w1) = (calls (client w) ++ [CallDelete id])%list.
Proof.
  unfold client_Delete.
  destruct (on_Delete svc (DisableRetries (client w)) id (remote (client w)))
    as [reply' r'].
  intros [= <- <-]. auto.
Qed.

Lemma client_Create_inv (u : B2CUserFlow) (w w1 : World R) (reply : EntityReply) :
  client_Create svc u w = Return reply w1 ->
  data w1 = data w
  /\ DisableRetries (client w1) = DisableRetries (client w)
  /\ calls (client w1) = (calls (client w) ++ [CallCreate u])%list.
Proof.
  unfold client_Create.
  destruct (on_Create svc (DisableRetries (client w)) u (remote (client w)))
    as [reply' r'].
  intros [= <- <-]. auto.
Qed.

Lemma client_Update_total (u : B2CUserFlow) (w : World R) :
  exists reply w1,
    client_Update svc u w = Return reply w1
    /\ data w1 = data w
    /\ DisableRetries (client w1) = DisableRetries (client w)
    /\ calls (client w1) = (calls (client w) ++ [CallUpdate u])%list.
Proof.
  unfold client_Update.
  destruct (on_Update svc (DisableRetries (client w)) u (remote (client w)))
    as [reply r'].
  now eexists _, _.
Qed.

(** The probe always returns, and touches the client only. *)
Lemma deletionProbe_frame (id : string) (ctx : Ctx) (w : World R) :
  exists r w1,
    deletionProbe svc id ctx w = Return r w1
    /\ data w1 = data w
    /\ DisableRetries (client w1) = true.
Proof.
  unfold deletionProbe. run.
  match goal with |- context [client_Get svc id ?w0] =>
    destruct (client_Get_frame id w0) as (reply & w1 & E & Hd & Hf & _)
  end.
  rewrite E.
  destruct (r_err reply); [destruct (r_status reply =? StatusNotFound)|];
    eexists _, _; (split; [reflexivity|]); auto.
Qed.

(** The wait always returns, whatever the deadline, and leaves the resource
    data as it found it. *)
Lemma poll_frame (id : string) (ctx : Ctx) (budget : nat) (w : World R) :
  exists r w1,
    poll (deletionProbe svc id ctx) budget w = Return r w1
    /\ data w1 = data w.
Proof.
  revert w. induction budget as [|n IH]; intros w; simpl.
  - now eexists _, _.
  - destruct (deletionProbe_frame id ctx w) as ([b e] & w1 & E & Hd & _).
    rewrite (bind_Return E). cbn [fst snd].
    destruct e as [err|].
    + now eexists _, _.
    + destruct (IH w1) as (r & w2 & E2 & Hd2).
      destruct b as [[|]|].
      * exists r, w2. split; [exact E2 | congruence].
      * now eexists _, _.
      * exists r, w2. split; [exact E2 | congruence].
Qed.

End Frames.

Arguments client_Get_inv {R svc id w w1 reply} _.
Arguments client_Delete_inv {R svc id w w1 reply} _.
Arguments client_Create_inv {R svc u w w1 reply} _.

Section Read.

Context {R : Type} (svc : Service R).

(** C5: when [client.Get] fails with status 404, Read sets the identifier
    to the empty string and returns no diagnostics; when it fails with any
    other status, Read returns one error diagnostic whose summary carries
    the identifier looked up and whose detail is the client's error, and
    the resource data, identifier included, is left as it was. *)
Theorem Read_failed_Get (ctx : Ctx) (w w1 : World R) (reply : EntityReply)
    (err : error) :
  client_Get svc (Id (data w)) w = Return reply w1 ->
  r_err reply = Some err ->
  (r_status reply = StatusNotFound ->
   b2cuserflowResourceRead svc ctx w
   = Return [] {| data := SetId (data w) ""; client := client w1 |}
   /\ Id (data (world_of (b2cuserflowResourceRead svc ctx w))) = "")
  /\ (r_status reply <> StatusNotFound ->
      b2cuserflowResourceRead svc ctx w
      = Return
          (ErrorDiagF err "Retrieving userflow with object ID: %q"
             [ArgString (Id (data w))]) w1
      /\ data w1 = data w).
Proof.
  intros HGet Herr.
  destruct (client_Get_inv HGet) as (Hd & _).
  unfold b2cuserflowResourceRead. run.
  rewrite HGet, Herr.
  split; intros Hs.
  - apply Z.eqb_eq in Hs. rewrite Hs. cbn. rewrite Hd. auto.
  - apply Z.eqb_neq in Hs. rewrite Hs. auto.
Qed.

End Read.


(** Read of a flow that the tenant no longer has, and Read against a
    service that answers 500. *)
Lemma Read_failed_Get_witness :
  b2cuserflowResourceRead Tenant.service 10%nat
    {| data := promo_created; client := fresh_client [] |}
  = Return []
      {| data := SetId promo_created "";
         client := {| DisableRetries := false; remote := [];
                      calls := [CallGet "B2C_1_promo" false] |} |}
  /\ b2cuserflowResourceRead Scripted.service 10%nat
       {| data := promo_created; client := fresh_client [] |}
     = Return
         (ErrorDiagF Scripted.unexpected
            "Retrieving userflow with object ID: %q" [ArgString "B2C_1_promo"])
         {| data := promo_created;
            client := {| DisableRetries := false; remote := [];
                         calls := [CallGet "B2C_1_promo" false] |} |}.
Proof.
  split.
  - apply (proj1 (Read_failed_Get Tenant.service 10%nat
                    {| data := promo_created; client := fresh_client [] |}
                    _ _ _ eq_refl eq_refl)).
    reflexivity.
  - apply (proj2 (Read_failed_Get Scripted.service 10%nat
                    {| data := promo_created; client := fresh_client [] |}
                    _ _ _ eq_refl eq_refl)).
    discriminate.
Defined.

Section ReadFound.

Context {R : Type} (svc : Service R).

Lemma Read_found (ctx : Ctx) (w w1 : World R) (reply : EntityReply)
    (i t : string) (v : float32) (l : string) (b : bool) :
  client_Get svc (Id (data w)) w = Return reply w1 ->
  r_err reply = None ->
  r_entity reply
  = Some {| ID := Some i; UserFlowType := Some t;
            UserFlowTypeVersion := Some v; DefaultLanguageTag := Some l;
            IsLanguageCustomizationEnabled := Some b |} ->
  b2cuserflowResourceRead svc ctx w
  = Return [] {| data := refreshed (data w) i t v l b; client := client w1 |}.
Proof.
  intros HGet Herr Hu.
  destruct (client_Get_inv HGet) as (Hd & _).
  unfold b2cuserflowResourceRead. run.
  rewrite HGet, Herr, Hu. unfold tf_Set. cbn.
  unfold refreshed. now rewrite Hd.
Qed.

Lemma Read_nil_entity (ctx : Ctx) (w w1 : World R) (reply : EntityReply) :
  client_Get svc (Id (data w)) w = Return reply w1 ->
  r_err reply = None ->
  r_entity reply = None ->
  b2cuserflowResourceRead svc ctx w = Panic w1.
Proof.
  intros HGet Herr Hu.
  unfold b2cuserflowResourceRead. run.
  now rewrite HGet, Herr, Hu.
Qed.

(** C10: on a successful [client.Get] Read dereferences the five pointer
    fields of the flow it was given.  When all five are present Read
    returns, without diagnostics, having copied them; when any one of them
    is nil Read panics, it does not return an error. *)
Theorem Read_dereferences_all_fields (ctx : Ctx) (w w1 : World R)
    (reply : EntityReply) (u : B2CUserFlow) :
  client_Get svc (Id (data w)) w = Return reply w1 ->
  r_err reply = None ->
  r_entity reply = Some u ->
  (forall i t v l b,
      ID u = Some i -> UserFlowType u = Some t ->
      UserFlowTypeVersion u = Some v -> DefaultLanguageTag u = Some l ->
      IsLanguageCustomizationEnabled u = Some b ->
      b2cuserflowResourceRead svc ctx w
      = Return [] {| data := refreshed (data w) i t v l b;
                     client := client w1 |})
  /\ (ID u = None \/ UserFlowType u = None \/ UserFlowTypeVersion u = None
      \/ DefaultLanguageTag u = None
      \/ IsLanguageCustomizationEnabled u = None ->
      exists w', b2cuserflowResourceRead svc ctx w = Panic w').
Proof.
  intros HGet Herr Hu. split.
  - intros i t v l b Hi Ht Hv Hl Hb.
    eapply Read_found; [exact HGet | exact Herr |].
    rewrite Hu. destruct u; cbn in *. congruence.
  - intros Hnil.
    unfold b2cuserflowResourceRead. run.
    rewrite HGet, Herr, Hu. unfold tf_Set.
    destruct u as [[i|] [t|] [v|] [l|] [b|]]; cbn in *;
      try (eexists; reflexivity);
      exfalso; intuition discriminate.
Qed.

End ReadFound.

Arguments Read_found {R} svc ctx {w w1 reply i t v l b} _ _ _.

Lemma Read_dereferences_all_fields_witness :
  b2cuserflowResourceRead Tenant.service 10%nat
    {| data := promo_created; client := fresh_client [promo_flow] |}
  = Return []
      {| data := promo_created;
         client := {| DisableRetries := false; remote := [promo_flow];
                      calls := [CallGet "B2C_1_promo" false] |} |}
  /\ exists w',
      b2cuserflowResourceRead Scripted.service 10%nat
        {| data := promo_created;
           client := fresh_client [found flow_without_tag] |}
      = Panic w'.
Proof.
  split.
  - apply (proj1 (Read_dereferences_all_fields Tenant.service 10%nat
                    {| data := promo_created;
                       client := fresh_client [promo_flow] |}
                    _ _ _ eq_refl eq_refl eq_refl)
             "B2C_1_promo" "signUp" (float32_of_float64 1%float) "en" false);
      reflexivity.
  - apply (proj2 (Read_dereferences_all_fields Scripted.service 10%nat
                    {| data := promo_created;
                       client := fresh_client [found flow_without_tag] |}
                    _ _ _ eq_refl eq_refl eq_refl)).
    right. right. right. left. reflexivity.
Defined.

Section Update.

Context {R : Type} (svc : Service R).

(** Read makes exactly one call, a Get of the identifier, whether it
    returns or panics. *)
Lemma Read_calls (ctx : Ctx) (w : World R) :
  calls (client (world_of (b2cuserflowResourceRead svc ctx w)))
  = (calls (client w)
     ++ [CallGet (Id (data w)) (DisableRetries (client w))])%list.
Proof.
  unfold b2cuserflowResourceRead. run.
  destruct (client_Get_frame svc (Id (data w)) w)
    as (reply & w1 & E & Hd & Hf & Hc).
  rewrite E. unfold tf_Set.
  destruct (r_err reply) as [err|].
  - destruct (r_status reply =? StatusNotFound); exact Hc.
  - destruct (r_entity reply) as [[[i|] [t|] [v|] [l|] [b|]]|]; exact Hc.
Qed.

(** For string attributes [HasChange] is inequality of the persisted and
    the configured value. *)
Lemma HasChange_name (d : ResourceData) :
  HasChange d name = true <-> a_name (prior d) <> a_name (current d).
Proof.
  unfold HasChange; cbn. rewrite negb_true_iff. apply String.eqb_neq.
Qed.

Lemma HasChange_user_flow_type (d : ResourceData) :
  HasChange d user_flow_type = true
  <-> a_user_flow_type (prior d) <> a_user_flow_type (current d).
Proof.
  unfold HasChange; cbn. rewrite negb_true_iff. apply String.eqb_neq.
Qed.

(** C2: when [user_flow_type], [user_flow_type_version] or [name] has
    changed, Update returns the error "Cannot update" followed by the key
    of an attribute that changed, and the world is the one it started
    from: no call was added to the client's log, nothing was sent, and the
    resource data is untouched. *)
Theorem Update_rejects_immutable_change (ctx : Ctx) (w : World R) :
  HasChange (data w) user_flow_type = true
  \/ HasChange (data w) user_flow_type_version = true
  \/ HasChange (data w) name = true ->
  exists a,
    In a [user_flow_type; user_flow_type_version; name]
    /\ HasChange (data w) a = true
    /\ b2cuserflowResourceUpdate svc ctx w
       = Return
           (ErrorDiagF (errors_New ("Cannot update " ++ attr_key a))
              ("Cannot update " ++ attr_key a) []) w.
Proof.
  intros H.
  unfold b2cuserflowResourceUpdate. run.
  destruct (HasChange (data w) user_flow_type) eqn:Ht.
  { exists user_flow_type. cbn. auto. }
  destruct (HasChange (data w) user_flow_type_version) eqn:Hv.
  { exists user_flow_type_version. cbn. auto. }
  destruct (HasChange (data w) name) eqn:Hn.
  { exists name. cbn. auto 6. }
  exfalso. intuition discriminate.
Qed.

(** C7: when none of the three immutable attributes has changed, Update
    makes one update call, its first call, and the flow it sends has the
    identifier, the default language tag and the language customization
    flag set and the type and the version nil; the flow is the same for any
    two resource data that agree on those three values.  The only call that
    can follow is the Get of the Read. *)
Theorem Update_request_fields (ctx : Ctx) (w : World R) :
  HasChange (data w) user_flow_type = false ->
  HasChange (data w) user_flow_type_version = false ->
  HasChange (data w) name = false ->
  let sent :=
    {| ID := Some (Id (data w));
       UserFlowType := None;
       UserFlowTypeVersion := None;
       DefaultLanguageTag := Some (a_default_language_tag (current (data w)));
       IsLanguageCustomizationEnabled :=
         Some (a_is_language_customization_enabled (current (data w))) |} in
  (exists rest,
      calls (client (world_of (b2cuserflowResourceUpdate svc ctx w)))
      = (calls (client w) ++ CallUpdate sent :: rest)%list
      /\ (rest = []
          \/ rest = [CallGet (Id (data w)) (DisableRetries (client w))]))
  /\ (forall d',
         Id d' = Id (data w) ->
         a_default_language_tag (current d')
         = a_default_language_tag (current (data w)) ->
         a_is_language_customization_enabled (current d')
         = a_is_language_customization_enabled (current (data w)) ->
         update_request d' = sent).
Proof.
  intros Ht Hv Hn sent. split.
  - unfold b2cuserflowResourceUpdate. run. rewrite Ht, Hv, Hn.
    fold sent.
    destruct (client_Update_total svc sent w) as (reply & w1 & E & Hd & Hf & Hc).
    rewrite E.
    destruct (s_err reply) as [err|].
    + exists []. split; [exact Hc | now left].
    + exists [CallGet (Id (data w)) (DisableRetries (client w))].
      split; [| now right].
      rewrite Read_calls, Hc, Hd, Hf, <- app_assoc. reflexivity.
  - intros d' Hi Hl Hb. unfold update_request, sent. now rewrite Hi, Hl, Hb.
Qed.

End Update.


Lemma Update_rejects_immutable_change_witness :
  exists a,
    In a [user_flow_type; user_flow_type_version; name]
    /\ HasChange promo_renamed a = true
    /\ b2cuserflowResourceUpdate Tenant.service 10%nat
         {| data := promo_renamed; client := fresh_client [promo_flow] |}
       = Return
           (ErrorDiagF (errors_New ("Cannot update " ++ attr_key a))
              ("Cannot update " ++ attr_key a) [])
           {| data := promo_renamed; client := fresh_client [promo_flow] |}.
Proof.
  apply (Update_rejects_immutable_change Tenant.service 10%nat
           {| data := promo_renamed; client := fresh_client [promo_flow] |}).
  right. right. reflexivity.
Defined.

Lemma Update_request_fields_witness :
  exists rest,
    calls (client (world_of
      (b2cuserflowResourceUpdate Tenant.service 10%nat
         {| data := promo_retagged; client := fresh_client [promo_flow] |})))
    = CallUpdate
        {| ID := Some "B2C_1_promo";
           UserFlowType := None;
           UserFlowTypeVersion := None;
           DefaultLanguageTag := Some "fr";
           IsLanguageCustomizationEnabled := Some true |} :: rest
    /\ (rest = [] \/ rest = [CallGet "B2C_1_promo" false]).
Proof.
  exact (proj1 (Update_request_fields Tenant.service 10%nat
                  {| data := promo_retagged;
                     client := fresh_client [promo_flow] |}
                  eq_refl eq_refl eq_refl)).
Defined.

Example promo_update :
  b2cuserflowResourceUpdate Tenant.service 10%nat
    {| data := promo_retagged; client := fresh_client [promo_flow] |}
  = Return []
      {| data := promo_retagged;
         client :=
           {| DisableRetries := false;
              remote := [ {| ID := Some "B2C_1_promo";
                             UserFlowType := Some "signUp";
                             UserFlowTypeVersion :=
                               Some (float32_of_float64 1%float);
                             DefaultLanguageTag := Some "fr";
                             IsLanguageCustomizationEnabled := Some true |} ];
              calls := [CallUpdate (update_request promo_retagged);
                        CallGet "B2C_1_promo" false] |} |}.
Proof. reflexivity. Qed.

Section Create.

Context {R : Type} (svc : Service R).

(** Create up to the reply of [client.Create]: what is left to run once
    the reply is known. *)
Lemma Create_after_reply (ctx : Ctx) (w w1 : World R) (reply : EntityReply) :
  client_Create svc (create_request (data w)) w = Return reply w1 ->
  b2cuserflowResourceCreate svc ctx w
  = match r_err reply with
    | Some err =>
        Return
          (ErrorDiagF err "Creating userflow %+v"
             [ArgUserFlow (create_request (data w))]) w1
    | None =>
        match r_entity reply with
        | None => Panic w1
        | Some resp =>
            if match ID resp with
               | None => true
               | Some s => String.eqb s ""
               end
            then
              Return
                (ErrorDiagF (errors_New "API returned nil object ID")
                   "Bad API Response" []) w1
            else
              b2cuserflowResourceRead svc ctx
                {| data := SetId (data w1)
                             (Sprintf_B2C_1 (a_name (current (data w))));
                   client := client w1 |}
        end
    end.
Proof.
  intros HCreate.
  unfold b2cuserflowResourceCreate. run.
  fold (create_request (data w)). rewrite HCreate.
  destruct (r_err reply) as [err|]; [reflexivity|].
  destruct (r_entity reply) as [resp|]; [|reflexivity].
  destruct (ID resp) as [s|]; [destruct (String.eqb s "")|]; reflexivity.
Qed.

(** C3: when [client.Create] returns no error and a flow with a non-empty
    identifier, Create sets the identifier to "B2C_1_" followed by the
    configured name and continues as the Read of the resource data so
    identified: after the create call the one further call is the Get of
    that identifier, and when the Get finds the flow with all its fields,
    Create returns without diagnostics, the identifier in place and the
    computed attributes filled from the flow. *)
Theorem Create_sets_id_then_reads (ctx : Ctx) (w w1 : World R)
    (reply : EntityReply) (resp : B2CUserFlow) (n s : string) :
  Get (data w) name = VString n ->
  client_Create svc (create_request (data w)) w = Return reply w1 ->
  r_err reply = None ->
  r_entity reply = Some resp ->
  ID resp = Some s ->
  s <> "" ->
  let identified :=
    {| data := SetId (data w) ("B2C_1_" ++ n); client := client w1 |} in
  b2cuserflowResourceCreate svc ctx w
  = b2cuserflowResourceRead svc ctx identified
  /\ calls (client (world_of (b2cuserflowResourceCreate svc ctx w)))
     = (calls (client w)
        ++ [CallCreate (create_request (data w));
            CallGet ("B2C_1_" ++ n) (DisableRetries (client w))])%list
  /\ (forall found w2 i t v l b,
         client_Get svc ("B2C_1_" ++ n) identified = Return found w2 ->
         r_err found = None ->
         r_entity found
         = Some {| ID := Some i; UserFlowType := Some t;
                   UserFlowTypeVersion := Some v;
                   DefaultLanguageTag := Some l;
                   IsLanguageCustomizationEnabled := Some b |} ->
         b2cuserflowResourceCreate svc ctx w
         = Return []
             {| data := refreshed (SetId (data w) ("B2C_1_" ++ n)) i t v l b;
                client := client w2 |}).
Proof.
  intros Hn HCreate Herr Hresp Hid Hs identified.
  injection Hn as Hn.
  destruct (client_Create_inv HCreate) as (Hd & Hf & Hc).
  assert (E : b2cuserflowResourceCreate svc ctx w
              = b2cuserflowResourceRead svc ctx identified).
  { rewrite (@Create_after_reply ctx w w1 reply HCreate), Herr, Hresp, Hid.
    apply String.eqb_neq in Hs. rewrite Hs.
    unfold identified, Sprintf_B2C_1. now rewrite Hd, Hn. }
  split; [exact E|]. rewrite E. split.
  - rewrite Read_calls. cbn. rewrite Hc, Hf, <- app_assoc. reflexivity.
  - intros found w2 i t v l b HGet Hok Hfound.
    exact (Read_found svc ctx HGet Hok Hfound).
Qed.

(** C6: when [client.Create] returns no error but the flow it returns has a
    nil or empty identifier, Create returns the error "Bad API Response";
    the resource data, identifier included, is as before and the create
    call is the only call made, so no Read took place. *)
Theorem Create_bad_response (ctx : Ctx) (w w1 : World R) (reply : EntityReply)
    (resp : B2CUserFlow) :
  client_Create svc (create_request (data w)) w = Return reply w1 ->
  r_err reply = None ->
  r_entity reply = Some resp ->
  ID resp = None \/ ID resp = Some "" ->
  b2cuserflowResourceCreate svc ctx w
  = Return
      (ErrorDiagF (errors_New "API returned nil object ID")
         "Bad API Response" []) w1
  /\ data w1 = data w
  /\ calls (client w1)
     = (calls (client w) ++ [CallCreate (create_request (data w))])%list.
Proof.
  intros HCreate Herr Hresp Hid.
  destruct (client_Create_inv HCreate) as (Hd & _ & Hc).
  rewrite (@Create_after_reply ctx w w1 reply HCreate), Herr, Hresp.
  destruct Hid as [-> | ->]; auto.
Qed.

End Create.


Lemma Create_sets_id_then_reads_witness :
  b2cuserflowResourceCreate Tenant.service 10%nat
    {| data := promo_new; client := fresh_client [] |}
  = b2cuserflowResourceRead Tenant.service 10%nat
      {| data := SetId promo_new "B2C_1_promo";
         client := {| DisableRetries := false; remote := [promo_flow];
                      calls := [CallCreate (create_request promo_new)] |} |}.
Proof.
  refine (proj1 (Create_sets_id_then_reads Tenant.service 10%nat
                   {| data := promo_new; client := fresh_client [] |}
                   _ _ _ "promo" _ eq_refl eq_refl eq_refl eq_refl eq_refl _)).
  discriminate.
Defined.

Lemma Create_bad_response_witness :
  b2cuserflowResourceCreate Scripted.service 10%nat
    {| data := promo_new; client := fresh_client [created_without_id] |}
  = Return
      (ErrorDiagF (errors_New "API returned nil object ID")
         "Bad API Response" [])
      {| data := promo_new;
         client := {| DisableRetries := false; remote := [];
                      calls := [CallCreate (create_request promo_new)] |} |}.
Proof.
  apply (Create_bad_response Scripted.service 10%nat
           {| data := promo_new;
              client := fresh_client [created_without_id] |}
           _ _ _ eq_refl eq_refl eq_refl).
  right. reflexivity.
Defined.

Section Delete.

Context {R : Type} (svc : Service R).

(** Delete up to the reply of [client.Delete]. *)
Lemma Delete_after_reply (ctx : Ctx) (w w1 : World R) (reply : StatusReply) :
  client_Delete svc (Id (data w)) w = Return reply w1 ->
  b2cuserflowResourceDelete svc ctx w
  = match s_err reply with
    | Some err =>
        if s_status reply =? StatusNotFound then
          Return [] {| data := SetId (data w1) ""; client := client w1 |}
        else
          Return
            (ErrorDiagPathF err "id"
               "Deleting userflow with object ID %q, got status %d"
               [ArgString (Id (data w)); ArgInt (s_status reply)]) w1
    | None =>
        match WaitForDeletion ctx (deletionProbe svc (Id (data w))) w1 with
        | Return (Some err) w2 =>
            Return
              (ErrorDiagF err
                 "Waiting for deletion of userflow with object ID %q"
                 [ArgString (Id (data w))]) w2
        | Return None w2 => Return [] w2
        | Panic w2 => Panic w2
        end
    end.
Proof.
  intros HDelete.
  unfold b2cuserflowResourceDelete. run. rewrite HDelete.
  destruct (s_err reply) as [err|].
  - destruct (s_status reply =? StatusNotFound); reflexivity.
  - destruct (WaitForDeletion ctx (deletionProbe svc (Id (data w))) w1)
      as [[err|] w2 | w2]; reflexivity.
Qed.

(** The wait always returns and leaves the resource data alone. *)
Lemma WaitForDeletion_frame (id : string) (ctx : Ctx) (w : World R) :
  exists r w1,
    WaitForDeletion ctx (deletionProbe svc id) w = Return r w1
    /\ data w1 = data w.
Proof. apply poll_frame. Qed.

(** A deadline that has already elapsed fails the wait without a probe. *)
Lemma WaitForDeletion_elapsed (id : string) (w : World R) :
  WaitForDeletion 0%nat (deletionProbe svc id) w = Return (Some DeadlineExceeded) w.
Proof. reflexivity. Qed.

(** C1, as the code has it: Delete returns without diagnostics in both
    cases.  When [client.Delete] fails with status 404, Delete sets the
    identifier to the empty string and makes no further call, so the wait
    is not entered.  When the deletion request succeeds and the wait
    confirms the deletion, Delete leaves the resource data, identifier
    included, as it was. *)
Theorem Delete_success_cases (ctx : Ctx) (w w1 : World R) (reply : StatusReply) :
  client_Delete svc (Id (data w)) w = Return reply w1 ->
  (forall err,
      s_err reply = Some err -> s_status reply = StatusNotFound ->
      b2cuserflowResourceDelete svc ctx w
      = Return [] {| data := SetId (data w) ""; client := client w1 |}
      /\ calls (client w1)
         = (calls (client w) ++ [CallDelete (Id (data w))])%list)
  /\ (forall w2,
         s_err reply = None ->
         WaitForDeletion ctx (deletionProbe svc (Id (data w))) w1
         = Return None w2 ->
         b2cuserflowResourceDelete svc ctx w = Return [] w2
         /\ data w2 = data w).
Proof.
  intros HDelete.
  destruct (client_Delete_inv HDelete) as (Hd & _ & Hc).
  rewrite (@Delete_after_reply ctx w w1 reply HDelete).
  split.
  - intros err -> Hs. apply Z.eqb_eq in Hs. rewrite Hs, Hd. auto.
  - intros w2 -> HWait. rewrite HWait. split; [reflexivity|].
    destruct (WaitForDeletion_frame (Id (data w)) ctx w1)
      as (r & w2' & E & Hd2).
    rewrite E in HWait. injection HWait as _ <-. congruence.
Qed.

(** C8: the probe sets [DisableRetries] and then makes its Get, which is
    therefore made with retries disabled.  A Get failing with status 404
    gives (false, nil); a Get without error gives (true, nil); a Get
    failing with any other status gives (nil, err) with the client's error
    as it is, and a wait that runs this probe fails with that error. *)
Theorem deletionProbe_outcomes (id : string) (ctx : Ctx) (w w1 : World R)
    (reply : EntityReply) :
  client_Get svc id (retries_disabled w) = Return reply w1 ->
  DisableRetries (client w1) = true
  /\ calls (client w1) = (calls (client w) ++ [CallGet id true])%list
  /\ (forall err,
         r_err reply = Some err -> r_status reply = StatusNotFound ->
         deletionProbe svc id ctx w = Return (Some false, None) w1)
  /\ (r_err reply = None ->
      deletionProbe svc id ctx w = Return (Some true, None) w1)
  /\ (forall err,
         r_err reply = Some err -> r_status reply <> StatusNotFound ->
         deletionProbe svc id ctx w = Return (None, Some err) w1
         /\ forall deadline,
             WaitForDeletion (S deadline) (deletionProbe svc id) w
             = Return (Some err) w1).
Proof.
  intros HGet.
  destruct (client_Get_inv HGet) as (_ & Hf & Hc).
  assert (E : deletionProbe svc id ctx w
              = match r_err reply with
                | Some err =>
                    if r_status reply =? StatusNotFound
                    then Return (Some false, None) w1
                    else Return (None, Some err) w1
                | None => Return (Some true, None) w1
                end).
  { unfold deletionProbe. run. fold (retries_disabled w). rewrite HGet.
    destruct (r_err reply); [destruct (r_status reply =? StatusNotFound)|];
      reflexivity. }
  split; [exact Hf|]. split; [exact Hc|]. split; [|split].
  - intros err Herr Hs. apply Z.eqb_eq in Hs. now rewrite E, Herr, Hs.
  - intros Herr. now rewrite E, Herr.
  - intros err Herr Hs. apply Z.eqb_neq in Hs.
    assert (E' : forall c, deletionProbe svc id c w = Return (None, Some err) w1).
    { intros c. unfold deletionProbe in *. now rewrite E, Herr, Hs. }
    split; [apply E'|].
    intros deadline. unfold WaitForDeletion. cbn [poll].
    now rewrite (bind_Return (E' (S deadline))).
Qed.

(** C9: when the deletion request succeeds and the wait fails, Delete
    returns one error diagnostic whose detail is the wait's error and whose
    summary carries the identifier, and the resource data, identifier
    included, is as it was before Delete. *)
Theorem Delete_wait_failure (ctx : Ctx) (w w1 w2 : World R)
    (reply : StatusReply) (err : error) :
  client_Delete svc (Id (data w)) w = Return reply w1 ->
  s_err reply = None ->
  WaitForDeletion ctx (deletionProbe svc (Id (data w))) w1
  = Return (Some err) w2 ->
  b2cuserflowResourceDelete svc ctx w
  = Return
      (ErrorDiagF err "Waiting for deletion of userflow with object ID %q"
         [ArgString (Id (data w))]) w2
  /\ data w2 = data w.
Proof.
  intros HDelete Herr HWait.
  destruct (client_Delete_inv HDelete) as (Hd & _).
  rewrite (@Delete_after_reply ctx w w1 reply HDelete), Herr, HWait.
  split; [reflexivity|].
  destruct (WaitForDeletion_frame (Id (data w)) ctx w1) as (r & w2' & E & Hd2).
  rewrite E in HWait. injection HWait as _ <-. congruence.
Qed.

End Delete.


(** C1, as stated, fails where the deletion request succeeds and the first
    probe finds the flow gone: Delete returns without diagnostics and the
    identifier is still "B2C_1_promo", not the empty string. *)
Lemma Delete_confirmed_clears_id_counterexample :
  client_Delete Tenant.service "B2C_1_promo" promo_world
  = Return {| s_status := 204; s_err := None |} promo_deleting
  /\ WaitForDeletion 10%nat (deletionProbe Tenant.service "B2C_1_promo")
       promo_deleting
     = Return None promo_gone
  /\ b2cuserflowResourceDelete Tenant.service 10%nat promo_world
     = Return [] promo_gone
  /\ Id (data promo_gone) = "B2C_1_promo"
  /\ Id (data promo_gone) <> "".
Proof. repeat split; discriminate. Qed.

Lemma Delete_success_cases_witness :
  b2cuserflowResourceDelete Tenant.service 10%nat
    {| data := promo_created; client := fresh_client [] |}
  = Return []
      {| data := SetId promo_created "";
         client := {| DisableRetries := false; remote := [];
                      calls := [CallDelete "B2C_1_promo"] |} |}
  /\ b2cuserflowResourceDelete Tenant.service 10%nat promo_world
     = Return [] promo_gone
  /\ data promo_gone = data promo_world.
Proof.
  split.
  - apply (proj1 (Delete_success_cases Tenant.service 10%nat
                    {| data := promo_created; client := fresh_client [] |}
                    _ _ eq_refl) Tenant.not_found);
      reflexivity.
  - apply (proj2 (Delete_success_cases Tenant.service 10%nat promo_world
                    _ _ eq_refl) promo_gone);
      reflexivity.
Defined.

Lemma deletionProbe_outcomes_witness :
  deletionProbe Tenant.service "B2C_1_promo" 10%nat promo_deleting
  = Return (Some false, None) promo_gone
  /\ deletionProbe Tenant.service "B2C_1_promo" 10%nat promo_world
     = Return (Some true, None)
         {| data := promo_created;
            client := {| DisableRetries := true; remote := [promo_flow];
                         calls := [CallGet "B2C_1_promo" true] |} |}
  /\ WaitForDeletion 10%nat (deletionProbe Scripted.service "B2C_1_promo")
       {| data := promo_created; client := fresh_client [] |}
     = Return (Some Scripted.unexpected)
         {| data := promo_created;
            client := {| DisableRetries := true; remote := [];
                         calls := [CallGet "B2C_1_promo" true] |} |}.
Proof.
  split; [|split].
  - apply (proj1 (proj2 (proj2
             (deletionProbe_outcomes Tenant.service "B2C_1_promo" 10%nat
                promo_deleting _ _ eq_refl))) Tenant.not_found);
      reflexivity.
  - apply (proj1 (proj2 (proj2 (proj2
             (deletionProbe_outcomes Tenant.service "B2C_1_promo" 10%nat
                promo_world _ _ eq_refl))))).
    reflexivity.
  - apply (proj2 (proj2 (proj2 (proj2
             (deletionProbe_outcomes Scripted.service "B2C_1_promo" 10%nat
                {| data := promo_created; client := fresh_client [] |}
                _ _ eq_refl)))) Scripted.unexpected);
      [reflexivity | discriminate].
Defined.

Lemma Delete_wait_failure_witness :
  b2cuserflowResourceDelete Scripted.service 2%nat
    {| data := promo_created; client := fresh_client lingering |}
  = Return
      (ErrorDiagF DeadlineExceeded
         "Waiting for deletion of userflow with object ID %q"
         [ArgString "B2C_1_promo"])
      {| data := promo_created;
         client := {| DisableRetries := true; remote := [];
                      calls := [CallDelete "B2C_1_promo";
                                CallGet "B2C_1_promo" true;
                                CallGet "B2C_1_promo" true] |} |}.
Proof.
  apply (Delete_wait_failure Scripted.service 2%nat
           {| data := promo_created; client := fresh_client lingering |}
           _ _ _ _ eq_refl eq_refl eq_refl).
Defined.

(** ** The importer *)

(** The fourth byte of a created identifier is an underscore, which is not
    a hexadecimal digit: whatever the rest, the digits do not decode. *)
Lemma created_id_not_hex (n : string) :
  let id := Sprintf_B2C_1 n in
  all_hex (substring 0 8 id ++ substring 9 4 id ++ substring 14 4 id
           ++ substring 19 4 id ++ substring 24 12 id) = false.
Proof. reflexivity. Qed.

Lemma ParseUUID_rejects_created_id (n : string) :
  exists err, ParseUUID (Sprintf_B2C_1 n) = Some err.
Proof.
  unfold ParseUUID.
  destruct (negb (Nat.eqb (String.length (Sprintf_B2C_1 n)) 36));
    [eexists; reflexivity|].
  destruct (negb _); [eexists; reflexivity|].
  rewrite created_id_not_hex. eexists; reflexivity.
Qed.

(** C4: the importer imports without error exactly when the identifier
    parses as a UUID, and it gives an error for the identifier "B2C_1_"
    followed by a name, whatever the name: no identifier set by Create is
    accepted. *)
Theorem Importer_rejects_created_id :
  (forall d, snd (Importer d) = None <-> ParseUUID (Id d) = None)
  /\ (forall d n, exists err, snd (Importer (SetId d (Sprintf_B2C_1 n))) = Some err).
Proof.
  split.
  - intros d. unfold Importer, importValidator.
    destruct (ParseUUID (Id d)); cbn; split; congruence.
  - intros d n. unfold Importer, importValidator. cbn [SetId Id].
    destruct (ParseUUID_rejects_created_id n) as (err & ->).
    eexists; reflexivity.
Qed.

(** * Further properties of the operations *)

Section CreatePaths.

Context {R : Type} (svc : Service R).

Lemma client_Create_total (u : B2CUserFlow) (w : World R) :
  exists reply w1, client_Create svc u w = Return reply w1.
Proof.
  unfold client_Create.
  destruct (on_Create svc (DisableRetries (client w)) u (remote (client w))).
  now eexists _, _.
Qed.

(** When [client.Create] returns an error, Create returns it under the
    summary "Creating userflow" with the flow it tried to create; the
    identifier is not set, the resource data is as before, and the create
    call is the only call made. *)
Theorem Create_transport_error (ctx : Ctx) (w w1 : World R)
    (reply : EntityReply) (err : error) :
  client_Create svc (create_request (data w)) w = Return reply w1 ->
  r_err reply = Some err ->
  b2cuserflowResourceCreate svc ctx w
  = Return
      (ErrorDiagF err "Creating userflow %+v"
         [ArgUserFlow (create_request (data w))]) w1
  /\ data w1 = data w
  /\ calls (client w1)
     = (calls (client w) ++ [CallCreate (create_request (data w))])%list.
Proof.
  intros HCreate Herr.
  destruct (client_Create_inv HCreate) as (Hd & _ & Hc).
  rewrite (Create_after_reply svc ctx w w1 reply HCreate), Herr. auto.
Qed.

(** When [client.Create] returns neither an error nor a flow, Create
    panics on the nil pointer, before any identifier is set. *)
Theorem Create_nil_response_panics (ctx : Ctx) (w w1 : World R)
    (reply : EntityReply) :
  client_Create svc (create_request (data w)) w = Return reply w1 ->
  r_err reply = None ->
  r_entity reply = None ->
  b2cuserflowResourceCreate svc ctx w = Panic w1 /\ data w1 = data w.
Proof.
  intros HCreate Herr Hnil.
  destruct (client_Create_inv HCreate) as (Hd & _).
  rewrite (Create_after_reply svc ctx w w1 reply HCreate), Herr, Hnil. auto.
Qed.

(** Whatever the service answers, Create makes the create call with the
    flow built from the configuration, and then at most one more call, the
    Get of the prefixed name: it never updates or deletes. *)
Theorem Create_calls (ctx : Ctx) (w : World R) :
  let made := calls (client (world_of (b2cuserflowResourceCreate svc ctx w))) in
  made = (calls (client w) ++ [CallCreate (create_request (data w))])%list
  \/ made
     = (calls (client w)
        ++ [CallCreate (create_request (data w));
            CallGet (Sprintf_B2C_1 (a_name (current (data w))))
              (DisableRetries (client w))])%list.
Proof.
  destruct (client_Create_total (create_request (data w)) w)
    as (reply & w1 & HCreate).
  destruct (client_Create_inv HCreate) as (Hd & Hf & Hc).
  cbv zeta.
  rewrite (Create_after_reply svc ctx w w1 reply HCreate).
  destruct (r_err reply) as [err|]; [now left|].
  destruct (r_entity reply) as [resp|]; [|now left].
  destruct (match ID resp with
            | Some s => String.eqb s ""
            | None => true
            end); [now left|].
  right. rewrite Read_calls. cbn. rewrite Hc, Hf, <- app_assoc. reflexivity.
Qed.

(** When the service acknowledges the creation and the Get that follows
    returns the flow as it was sent, under an identifier [i], Create ends
    with the identifier "B2C_1_" followed by the name, [object_id] set to
    [i], and the configured type, tag and flag; the version it stores is the
    configured one rounded to a [float32], not the configured [float64]. *)
Theorem Create_stores_rounded_version (ctx : Ctx) (w w1 w2 : World R)
    (reply found : EntityReply) (resp : B2CUserFlow) (s i : string) :
  client_Create svc (create_request (data w)) w = Return reply w1 ->
  r_err reply = None ->
  r_entity reply = Some resp ->
  ID resp = Some s ->
  s <> "" ->
  client_Get svc (Sprintf_B2C_1 (a_name (current (data w))))
    {| data := SetId (data w) (Sprintf_B2C_1 (a_name (current (data w))));
       client := client w1 |}
  = Return found w2 ->
  r_err found = None ->
  r_entity found
  = Some {| ID := Some i;
            UserFlowType := Some (a_user_flow_type (current (data w)));
            UserFlowTypeVersion :=
              Some (float32_of_float64
                      (a_user_flow_type_version (current (data w))));
            DefaultLanguageTag :=
              Some (a_default_language_tag (current (data w)));
            IsLanguageCustomizationEnabled :=
              Some (a_is_language_customization_enabled (current (data w))) |} ->
  b2cuserflowResourceCreate svc ctx w
  = Return []
      {| data :=
           {| Id := "B2C_1_" ++ a_name (current (data w));
              prior := prior (data w);
              current :=
                {| a_object_id := i;
                   a_name := a_name (current (data w));
                   a_user_flow_type := a_user_flow_type (current (data w));
                   a_user_flow_type_version :=
                     float64_of_float32
                       (float32_of_float64
                          (a_user_flow_type_version (current (data w))));
                   a_default_language_tag :=
                     a_default_language_tag (current (data w));
                   a_is_language_customization_enabled :=
                     a_is_language_customization_enabled (current (data w)) |} |};
         client := client w2 |}.
Proof.
  intros HCreate Herr Hresp Hid Hs HGet Hok Hfound.
  destruct (client_Create_inv HCreate) as (Hd & _).
  rewrite (Create_after_reply svc ctx w w1 reply HCreate), Herr, Hresp, Hid.
  apply String.eqb_neq in Hs. rewrite Hs, Hd.
  exact (Read_found svc ctx HGet Hok Hfound).
Qed.

End CreatePaths.

Lemma Create_transport_error_witness :
  b2cuserflowResourceCreate Scripted.service 10%nat
    {| data := promo_new; client := fresh_client [] |}
  = Return
      (ErrorDiagF Scripted.unexpected "Creating userflow %+v"
         [ArgUserFlow (create_request promo_new)])
      {| data := promo_new;
         client := {| DisableRetries := false; remote := [];
                      calls := [CallCreate (create_request promo_new)] |} |}.
Proof.
  apply (Create_transport_error Scripted.service 10%nat
           {| data := promo_new; client := fresh_client [] |}
           _ _ _ eq_refl eq_refl).
Defined.

Lemma Create_nil_response_panics_witness :
  b2cuserflowResourceCreate Scripted.service 10%nat
    {| data := promo_new; client := fresh_client [nothing_found] |}
  = Panic
      {| data := promo_new;
         client := {| DisableRetries := false; remote := [];
                      calls := [CallCreate (create_request promo_new)] |} |}.
Proof.
  apply (Create_nil_response_panics Scripted.service 10%nat
           {| data := promo_new; client := fresh_client [nothing_found] |}
           _ _ eq_refl eq_refl eq_refl).
Defined.

(** Version 1.1 is stored as 1.10000002384185791015625. *)
Lemma Create_stores_rounded_version_witness :
  b2cuserflowResourceCreate Tenant.service 10%nat
    {| data := tenth_new; client := fresh_client [] |}
  = Return []
      {| data :=
           {| Id := "B2C_1_promo";
              prior := prior promo_new;
              current :=
                {| a_object_id := "B2C_1_promo";
                   a_name := "promo";
                   a_user_flow_type := "signUp";
                   a_user_flow_type_version := 0x1.19999ap+0%float;
                   a_default_language_tag := "en";
                   a_is_language_customization_enabled := false |} |};
         client :=
           {| DisableRetries := false;
              remote := [ {| ID := Some "B2C_1_promo";
                             UserFlowType := Some "signUp";
                             UserFlowTypeVersion :=
                               Some (F32 0x1.19999ap+0%float);
                             DefaultLanguageTag := Some "en";
                             IsLanguageCustomizationEnabled := Some false |} ];
              calls := [CallCreate (create_request tenth_new);
                        CallGet "B2C_1_promo" false] |} |}.
Proof.
  refine (Create_stores_rounded_version Tenant.service 10%nat
            {| data := tenth_new; client := fresh_client [] |}
            _ _ _ _ _ "B2C_1_promo" "B2C_1_promo"
            eq_refl eq_refl eq_refl eq_refl _ eq_refl eq_refl eq_refl).
  discriminate.
Defined.

Section UpdatePaths.

Context {R : Type} (svc : Service R).

(** Update once the guard is passed, up to the reply of [client.Update]. *)
Lemma Update_after_reply (ctx : Ctx) (w w1 : World R) (reply : StatusReply) :
  HasChange (data w) user_flow_type = false ->
  HasChange (data w) user_flow_type_version = false ->
  HasChange (data w) name = false ->
  client_Update svc (update_request (data w)) w = Return reply w1 ->
  b2cuserflowResourceUpdate svc ctx w
  = match s_err reply with
    | Some err =>
        Return
          (ErrorDiagF err "Could not update userflow with ID: %q"
             [ArgString (Id (data w1))]) w1
    | None => b2cuserflowResourceRead svc ctx w1
    end.
Proof.
  intros Ht Hv Hn HUpdate.
  unfold b2cuserflowResourceUpdate. run. rewrite Ht, Hv, Hn.
  fold (update_request (data w)). rewrite HUpdate.
  now destruct (s_err reply).
Qed.

Lemma client_Update_inv (u : B2CUserFlow) (w w1 : World R) (reply : StatusReply) :
  client_Update svc u w = Return reply w1 ->
  data w1 = data w
  /\ DisableRetries (client w1) = DisableRetries (client w)
  /\ calls (client w1) = (calls (client w) ++ [CallUpdate u])%list.
Proof.
  destruct (client_Update_total svc u w) as (reply' & w' & E & H).
  rewrite E. intros [= <- <-]. exact H.
Qed.

(** When the guard is passed and [client.Update] returns an error, Update
    returns it under a summary that carries the identifier; the resource
    data is as before and the update call is the only call made, so no
    Read took place. *)
Theorem Update_transport_error (ctx : Ctx) (w w1 : World R)
    (reply : StatusReply) (err : error) :
  HasChange (data w) user_flow_type = false ->
  HasChange (data w) user_flow_type_version = false ->
  HasChange (data w) name = false ->
  client_Update svc (update_request (data w)) w = Return reply w1 ->
  s_err reply = Some err ->
  b2cuserflowResourceUpdate svc ctx w
  = Return
      (ErrorDiagF err "Could not update userflow with ID: %q"
         [ArgString (Id (data w))]) w1
  /\ data w1 = data w
  /\ calls (client w1)
     = (calls (client w) ++ [CallUpdate (update_request (data w))])%list.
Proof.
  intros Ht Hv Hn HUpdate Herr.
  destruct (client_Update_inv _ _ _ _ HUpdate) as (Hd & _ & Hc).
  rewrite (Update_after_reply ctx w w1 reply Ht Hv Hn HUpdate), Herr, Hd.
  auto.
Qed.

(** When the guard is passed and [client.Update] returns no error, Update
    is the Read of the same resource data against the updated service:
    whatever Read returns, clears or panics on, Update does. *)
Theorem Update_then_reads (ctx : Ctx) (w w1 : World R) (reply : StatusReply) :
  HasChange (data w) user_flow_type = false ->
  HasChange (data w) user_flow_type_version = false ->
  HasChange (data w) name = false ->
  client_Update svc (update_request (data w)) w = Return reply w1 ->
  s_err reply = None ->
  b2cuserflowResourceUpdate svc ctx w
  = b2cuserflowResourceRead svc ctx
      {| data := data w; client := client w1 |}.
Proof.
  intros Ht Hv Hn HUpdate Herr.
  destruct (client_Update_inv _ _ _ _ HUpdate) as (Hd & _).
  rewrite (Update_after_reply ctx w w1 reply Ht Hv Hn HUpdate), Herr, <- Hd.
  now destruct w1.
Qed.

(** The guard reports the first attribute that changed, in the order
    [user_flow_type], [user_flow_type_version], [name]: a changed type
    hides a changed version or name, a changed version hides a changed
    name. *)
Theorem Update_guard_precedence (ctx : Ctx) (w : World R) :
  let rejected key :=
    Return
      (ErrorDiagF (errors_New ("Cannot update " ++ key))
         ("Cannot update " ++ key) []) w in
  (HasChange (data w) user_flow_type = true ->
   b2cuserflowResourceUpdate svc ctx w = rejected "user_flow_type")
  /\ (HasChange (data w) user_flow_type = false ->
      HasChange (data w) user_flow_type_version = true ->
      b2cuserflowResourceUpdate svc ctx w = rejected "user_flow_type_version")
  /\ (HasChange (data w) user_flow_type = false ->
      HasChange (data w) user_flow_type_version = false ->
      HasChange (data w) name = true ->
      b2cuserflowResourceUpdate svc ctx w = rejected "name").
Proof.
  cbv zeta. unfold b2cuserflowResourceUpdate. run.
  repeat split; intros; repeat match goal with
    | H : HasChange _ _ = _ |- _ => rewrite H; clear H
    end; reflexivity.
Qed.

Lemma app_cons_neq {A : Type} (l r : list A) (x : A) : (l ++ x :: r)%list <> l.
Proof.
  intros E. apply (f_equal (@length A)) in E.
  rewrite length_app in E. cbn in E. lia.
Qed.

(** Update returns without having called the client exactly when one of the
    attributes the schema requires has changed: the guard covers the
    required attributes, all of them and no other. *)
Theorem Update_silent_iff_required_changed (ctx : Ctx) (w : World R) :
  calls (client (world_of (b2cuserflowResourceUpdate svc ctx w)))
  = calls (client w)
  <-> exists a, Required (Schema a) = true /\ HasChange (data w) a = true.
Proof.
  split.
  - intros Hsilent.
    destruct (HasChange (data w) user_flow_type) eqn:Ht;
      [exists user_flow_type; auto|].
    destruct (HasChange (data w) user_flow_type_version) eqn:Hv;
      [exists user_flow_type_version; auto|].
    destruct (HasChange (data w) name) eqn:Hn; [exists name; auto|].
    exfalso.
    destruct (client_Update_total svc (update_request (data w)) w)
      as (reply & w1 & HUpdate & Hd & Hf & Hc).
    rewrite (Update_after_reply ctx w w1 reply Ht Hv Hn HUpdate) in Hsilent.
    destruct (s_err reply).
    + cbn in Hsilent. rewrite Hc in Hsilent.
      exact (app_cons_neq _ _ _ Hsilent).
    + rewrite Read_calls, Hc, <- app_assoc in Hsilent.
      exact (app_cons_neq _ _ _ Hsilent).
  - intros (a & Hreq & Hchanged).
    unfold b2cuserflowResourceUpdate. run.
    destruct (HasChange (data w) user_flow_type) eqn:Ht; [reflexivity|].
    destruct (HasChange (data w) user_flow_type_version) eqn:Hv;
      [reflexivity|].
    destruct (HasChange (data w) name) eqn:Hn; [reflexivity|].
    destruct a; cbn in Hreq; congruence.
Qed.

End UpdatePaths.

Lemma Update_transport_error_witness :
  b2cuserflowResourceUpdate Scripted.service 10%nat
    {| data := promo_retagged; client := fresh_client [] |}
  = Return
      (ErrorDiagF Scripted.unexpected "Could not update userflow with ID: %q"
         [ArgString "B2C_1_promo"])
      {| data := promo_retagged;
         client := {| DisableRetries := false; remote := [];
                      calls := [CallUpdate (update_request promo_retagged)] |} |}.
Proof.
  apply (Update_transport_error Scripted.service 10%nat
           {| data := promo_retagged; client := fresh_client [] |}
           _ _ _ eq_refl eq_refl eq_refl eq_refl eq_refl).
Defined.

(** The flow was removed behind the provider's back after the update went
    through: Update ends like the Read, without error and without
    identifier. *)
Lemma Update_then_reads_witness :
  b2cuserflowResourceUpdate Scripted.service 10%nat
    {| data := promo_retagged;
       client := fresh_client
                   [Scripted.Status {| s_status := 204; s_err := None |};
                    Scripted.Entity
                      {| r_entity := None; r_status := 404;
                         r_err := Some Tenant.not_found |}] |}
  = b2cuserflowResourceRead Scripted.service 10%nat
      {| data := promo_retagged;
         client := {| DisableRetries := false;
                      remote := [Scripted.Entity
                                   {| r_entity := None; r_status := 404;
                                      r_err := Some Tenant.not_found |}];
                      calls := [CallUpdate (update_request promo_retagged)] |} |}.
Proof.
  apply (Update_then_reads Scripted.service 10%nat
           {| data := promo_retagged;
              client := fresh_client
                          [Scripted.Status {| s_status := 204; s_err := None |};
                           Scripted.Entity
                             {| r_entity := None; r_status := 404;
                                r_err := Some Tenant.not_found |}] |}
           _ _ eq_refl eq_refl eq_refl eq_refl eq_refl).
Defined.

Lemma Update_guard_precedence_witness :
  b2cuserflowResourceUpdate Tenant.service 10%nat
    {| data := promo_retyped; client := fresh_client [promo_flow] |}
  = Return
      (ErrorDiagF (errors_New "Cannot update user_flow_type")
         "Cannot update user_flow_type" [])
      {| data := promo_retyped; client := fresh_client [promo_flow] |}
  /\ HasChange promo_retyped name = true.
Proof.
  split.
  - apply (proj1 (Update_guard_precedence Tenant.service 10%nat
                    {| data := promo_retyped;
                       client := fresh_client [promo_flow] |})).
    reflexivity.
  - reflexivity.
Defined.

Lemma Update_silent_iff_required_changed_witness :
  calls (client (world_of
    (b2cuserflowResourceUpdate Tenant.service 10%nat
       {| data := promo_renamed; client := fresh_client [promo_flow] |})))
  = [].
Proof.
  apply (proj2 (Update_silent_iff_required_changed Tenant.service 10%nat
                  {| data := promo_renamed;
                     client := fresh_client [promo_flow] |})).
  exists name. split; reflexivity.
Defined.

Section ReadAndDeletePaths.

Context {R : Type} (svc : Service R).

(** Whether Read returns or panics, it never writes [name], never touches
    the persisted values or the client's retry flag, and the identifier is
    either kept or reset to the empty string. *)
Theorem Read_frame (ctx : Ctx) (w : World R) :
  let w' := world_of (b2cuserflowResourceRead svc ctx w) in
  prior (data w') = prior (data w)
  /\ a_name (current (data w')) = a_name (current (data w))
  /\ (Id (data w') = Id (data w) \/ Id (data w') = "")
  /\ DisableRetries (client w') = DisableRetries (client w).
Proof.
  cbv zeta. unfold b2cuserflowResourceRead. run.
  destruct (client_Get_frame svc (Id (data w)) w)
    as (reply & w1 & E & Hd & Hf & _).
  rewrite E. unfold tf_Set.
  destruct (r_err reply) as [err|].
  - destruct (r_status reply =? StatusNotFound); cbn; rewrite Hd; auto.
  - destruct (r_entity reply) as [[[i|] [t|] [v|] [l|] [b|]]|];
      cbn; rewrite Hd; auto.
Qed.

(** When [client.Delete] fails with a status other than 404, Delete returns
    the error on the attribute path "id", with the identifier and the
    status in its summary; the resource data is as before and the delete
    call is the only call made: the wait is not entered. *)
Theorem Delete_other_failure (ctx : Ctx) (w w1 : World R)
    (reply : StatusReply) (err : error) :
  client_Delete svc (Id (data w)) w = Return reply w1 ->
  s_err reply = Some err ->
  s_status reply <> StatusNotFound ->
  b2cuserflowResourceDelete svc ctx w
  = Return
      [ {| severity := Error;
           Summary :=
             Sprintf "Deleting userflow with object ID %q, got status %d"
               [ArgString (Id (data w)); ArgInt (s_status reply)];
           Detail := err;
           AttributePath := "id" |} ] w1
  /\ data w1 = data w
  /\ calls (client w1) = (calls (client w) ++ [CallDelete (Id (data w))])%list.
Proof.
  intros HDelete Herr Hs.
  destruct (client_Delete_inv HDelete) as (Hd & _ & Hc).
  rewrite (Delete_after_reply svc ctx w w1 reply HDelete), Herr.
  apply Z.eqb_neq in Hs. rewrite Hs. auto.
Qed.

Lemma client_Delete_total (id : string) (w : World R) :
  exists reply w1, client_Delete svc id w = Return reply w1.
Proof.
  unfold client_Delete.
  destruct (on_Delete svc (DisableRetries (client w)) id (remote (client w))).
  now eexists _, _.
Qed.

(** Delete never panics.  It either leaves the resource data as it was, or
    returns without diagnostics having reset the identifier and nothing
    else. *)
Theorem Delete_never_panics (ctx : Ctx) (w : World R) :
  exists ds w',
    b2cuserflowResourceDelete svc ctx w = Return ds w'
    /\ (data w' = data w \/ ds = [] /\ data w' = SetId (data w) "").
Proof.
  destruct (client_Delete_total (Id (data w)) w) as (reply & w1 & HDelete).
  destruct (client_Delete_inv HDelete) as (Hd & _).
  rewrite (Delete_after_reply svc ctx w w1 reply HDelete).
  destruct (s_err reply) as [err|].
  - destruct (s_status reply =? StatusNotFound); eexists _, _;
      (split; [reflexivity|]); [right | left]; rewrite ?Hd; auto.
  - destruct (WaitForDeletion_frame svc (Id (data w)) ctx w1)
      as (r & w2 & E & Hd2).
    rewrite E.
    destruct r; eexists _, _; (split; [reflexivity|]); left; congruence.
Qed.

(** A wait that makes at least one probe ends with retries disabled, and
    every call it makes is a Get of the identifier with retries disabled. *)
Lemma poll_client (id : string) (ctx : Ctx) (budget : nat) (w : World R) :
  exists k,
    (k <= budget)%nat
    /\ calls (client (world_of (poll (deletionProbe svc id ctx) budget w)))
       = (calls (client w) ++ repeat (CallGet id true) k)%list
    /\ (budget <> 0%nat ->
        DisableRetries
          (client (world_of (poll (deletionProbe svc id ctx) budget w)))
        = true).
Proof.
  revert w. induction budget as [|n IH]; intros w.
  - exists 0%nat. cbn. rewrite app_nil_r. repeat split; [lia | congruence].
  - cbn [poll].
    destruct (deletionProbe_frame svc id ctx w) as ([b e] & w1 & E & Hd & Hf).
    assert (Hc : calls (client w1) = (calls (client w) ++ [CallGet id true])%list).
    { revert E. unfold deletionProbe. run.
      match goal with |- context [client_Get svc id ?w0] =>
        destruct (client_Get_frame svc id w0) as (reply & w' & E' & _ & _ & Hc)
      end.
      rewrite E'.
      destruct (r_err reply); [destruct (r_status reply =? StatusNotFound)|];
        intros [= _ _ <-]; exact Hc. }
    rewrite (bind_Return E). cbn [fst snd].
    assert (Hstop : forall r : option error,
               exists k, (k <= S n)%nat
                 /\ calls (client (world_of (Return r w1)))
                    = (calls (client w) ++ repeat (CallGet id true) k)%list
                 /\ (S n <> 0%nat ->
                     DisableRetries (client (world_of (Return r w1))) = true)).
    { intros r. exists 1%nat. cbn. repeat split; [lia | exact Hc | auto]. }
    assert (Hgo : exists k, (k <= S n)%nat
               /\ calls (client (world_of (poll (deletionProbe svc id ctx) n w1)))
                  = (calls (client w) ++ repeat (CallGet id true) k)%list
               /\ (S n <> 0%nat ->
                   DisableRetries
                     (client (world_of (poll (deletionProbe svc id ctx) n w1)))
                   = true)).
    { destruct (IH w1) as (k & Hk & Hcalls & Hflag).
      exists (S k). split; [lia|]. split.
      - rewrite Hcalls, Hc, <- app_assoc. reflexivity.
      - intros _. destruct n as [|n']; [exact Hf | now apply Hflag]. }
    destruct e as [err|]; [apply Hstop|].
    destruct b as [[|]|]; [apply Hgo | apply Hstop | apply Hgo].
Qed.

(** Once the deletion request has succeeded and the deadline allows one
    probe, Delete ends with [DisableRetries] set on the client, whatever it
    was before and however the wait ends: the flag is not put back. *)
Theorem Delete_leaves_retries_disabled (ctx : Ctx) (w w1 : World R)
    (reply : StatusReply) :
  client_Delete svc (Id (data w)) w = Return reply w1 ->
  s_err reply = None ->
  ctx <> 0%nat ->
  DisableRetries (client (world_of (b2cuserflowResourceDelete svc ctx w)))
  = true.
Proof.
  intros HDelete Herr Hctx.
  rewrite (Delete_after_reply svc ctx w w1 reply HDelete), Herr.
  destruct (poll_client (Id (data w)) ctx ctx w1) as (k & _ & _ & Hflag).
  specialize (Hflag Hctx). unfold WaitForDeletion.
  destruct (poll (deletionProbe svc (Id (data w)) ctx) ctx w1)
    as [[err|] w2 | w2]; exact Hflag.
Qed.

(** Delete makes the delete call first; every call after it is a Get of the
    same identifier with retries disabled, and there are no more of them
    than the deadline allows probes.  Delete never creates or updates. *)
Theorem Delete_calls (ctx : Ctx) (w : World R) :
  exists k,
    (k <= ctx)%nat
    /\ calls (client (world_of (b2cuserflowResourceDelete svc ctx w)))
       = (calls (client w)
          ++ CallDelete (Id (data w))
             :: repeat (CallGet (Id (data w)) true) k)%list.
Proof.
  destruct (client_Delete_total (Id (data w)) w) as (reply & w1 & HDelete).
  destruct (client_Delete_inv HDelete) as (_ & _ & Hc).
  rewrite (Delete_after_reply svc ctx w w1 reply HDelete).
  destruct (s_err reply) as [err|].
  - exists 0%nat. split; [lia|].
    destruct (s_status reply =? StatusNotFound); exact Hc.
  - destruct (poll_client (Id (data w)) ctx ctx w1) as (k & Hk & Hcalls & _).
    exists k. split; [exact Hk|].
    unfold WaitForDeletion.
    destruct (poll (deletionProbe svc (Id (data w)) ctx) ctx w1)
      as [[err|] w2 | w2]; cbn in *;
      rewrite Hcalls, Hc, <- app_assoc; reflexivity.
Qed.

End ReadAndDeletePaths.

Lemma Read_nil_entity_witness :
  b2cuserflowResourceRead Scripted.service 10%nat
    {| data := promo_created; client := fresh_client [nothing_found] |}
  = Panic
      {| data := promo_created;
         client := {| DisableRetries := false; remote := [];
                      calls := [CallGet "B2C_1_promo" false] |} |}.
Proof.
  apply (Read_nil_entity Scripted.service 10%nat
           {| data := promo_created; client := fresh_client [nothing_found] |}
           _ _ eq_refl eq_refl eq_refl).
Defined.

Lemma Delete_other_failure_witness :
  b2cuserflowResourceDelete Scripted.service 10%nat
    {| data := promo_created; client := fresh_client [] |}
  = Return
      [ {| severity := Error;
           Summary :=
             Sprintf "Deleting userflow with object ID %q, got status %d"
               [ArgString "B2C_1_promo"; ArgInt 500];
           Detail := Scripted.unexpected;
           AttributePath := "id" |} ]
      {| data := promo_created;
         client := {| DisableRetries := false; remote := [];
                      calls := [CallDelete "B2C_1_promo"] |} |}.
Proof.
  apply (Delete_other_failure Scripted.service 10%nat
           {| data := promo_created; client := fresh_client [] |}
           _ _ _ eq_refl eq_refl).
  discriminate.
Defined.

Lemma Delete_leaves_retries_disabled_witness :
  DisableRetries (client (world_of
    (b2cuserflowResourceDelete Tenant.service 10%nat promo_world)))
  = true.
Proof.
  apply (Delete_leaves_retries_disabled Tenant.service 10%nat promo_world
           _ _ eq_refl eq_refl).
  discriminate.
Defined.
